(** * Furniture Store API (main.py): catalogue queries, product detail,
      curated feeds and order intake over a document store.

    The handlers of [main.py] are embedded as functions over an explicit
    store.  Documents are Python dictionaries ([gmap string value]); the
    document store is embedded by the documented behaviour of the driver
    calls the handlers make ([find], [count_documents], [find_one],
    [distinct], [skip], [limit]), over collections kept as lists in the
    store's natural order.  Strings are ASCII byte strings; numbers are the
    rationals denoted by finite floats. *)

From Stdlib Require Import QArith Ascii String Strings.Byte.
From stdpp Require Import gmap strings list fin_maps.

Set Warnings "-register-all".
Set Default Proof Using "Type".
Open Scope string_scope.
Open Scope list_scope.

(** ** Python string operations used by the handlers *)

Module PyStr.

(** [str.isspace] on one ASCII character: TAB..CR, FS..US and space. *)
Definition isspace (c : ascii) : bool :=
    let n := N_of_ascii c in
    ((9 <=? n)%N && (n <=? 13)%N) || ((28 <=? n)%N && (n <=? 32)%N).

Fixpoint lstrip (s : string) : string :=
    match s with
    | String c s' => if isspace c then lstrip s' else s
    | EmptyString => EmptyString
    end.

Fixpoint rstrip (s : string) : string :=
    match s with
    | EmptyString => EmptyString
    | String c s' =>
        match rstrip s' with
        | EmptyString => if isspace c then EmptyString else String c EmptyString
        | t => String c t
        end
    end.

(** [s.strip()] *)
Definition strip (s : string) : string := rstrip (lstrip s).

(** [s.split(sep)] for a one-character separator. *)
Fixpoint split (sep : ascii) (s : string) : list string :=
    match s with
    | EmptyString => [EmptyString]
    | String c s' =>
        if Ascii.eqb c sep then EmptyString :: split sep s'
        else match split sep s' with
             | t :: ts => String c t :: ts
             | [] => [String c EmptyString]
             end
    end.

(** [sep.join(parts)] *)
Fixpoint join (sep : ascii) (parts : list string) : string :=
    match parts with
    | [] => EmptyString
    | [t] => t
    | t :: ts => t +:+ String sep (join sep ts)
    end.

(** Truth value of a string: non-empty. *)
Definition nonempty (s : string) : bool :=
    match s with EmptyString => false | _ => true end.

Definition lower_char (c : ascii) : ascii :=
    let n := N_of_ascii c in
    if (65 <=? n)%N && (n <=? 90)%N then ascii_of_N (n + 32) else c.

(** [s.lower()] on ASCII. *)
Fixpoint lower (s : string) : string :=
    match s with
    | EmptyString => EmptyString
    | String c s' => String (lower_char c) (lower s')
    end.

(** [needle.lower() in hay.lower()]: case-insensitive substring. *)
Definition icontains (needle hay : string) : Prop :=
    ∃ pre post, lower hay = pre +:+ lower needle +:+ post.

Definition contains_char (c : ascii) (s : string) : bool :=
    existsb (Ascii.eqb c) (list_ascii_of_string s).

End PyStr.

(** ** bson.ObjectId *)

Module Bson.

(** An ObjectId wraps its binary form (12 bytes when store-assigned). *)
Record ObjectId := mkObjectId { binary : list byte }.

Definition hexdigit (n : N) : ascii :=
    if (n <? 10)%N then ascii_of_N (48 + n) else ascii_of_N (87 + n).

(** Value of a hexadecimal digit, either case. *)
Definition hexval (c : ascii) : option N :=
    let n := N_of_ascii c in
    if (48 <=? n)%N && (n <=? 57)%N then Some (n - 48)%N
    else if (97 <=? n)%N && (n <=? 102)%N then Some (n - 87)%N
    else if (65 <=? n)%N && (n <=? 70)%N then Some (n - 55)%N
    else None.

(** [binascii.hexlify]: two lowercase digits per byte. *)
Fixpoint hexlify (bs : list byte) : string :=
    match bs with
    | [] => EmptyString
    | b :: bs' =>
        let n := Byte.to_N b in
        String (hexdigit (n / 16)) (String (hexdigit (n mod 16)) (hexlify bs'))
    end.

(** ASCII whitespace as [bytes.fromhex] sees it: TAB..CR and space. *)
Definition is_ascii_space (c : ascii) : bool :=
  let n := N_of_ascii c in
  ((9 <=? n)%N && (n <=? 13)%N) || (n =? 32)%N.

(** [bytes.fromhex]: pairs of hexadecimal digits, with any ASCII
    whitespace before a pair skipped; a digit without its partner, or any
    other character, is an error ([None]). *)
Fixpoint fromhex (s : string) : option (list byte) :=
  match s with
  | EmptyString => Some []
  | String h rest =>
      if is_ascii_space h then fromhex rest
      else
        match rest with
        | EmptyString => None
        | String l s' =>
            match hexval h, hexval l with
            | Some a, Some b =>
                match Byte.of_N (16 * a + b), fromhex s' with
                | Some x, Some xs => Some (x :: xs)
                | _, _ => None
                end
            | _, _ => None
            end
        end
  end.

(** [ObjectId(s)] for a string argument: the length must be 24 and
    [bytes.fromhex] must accept the string, else [InvalidId] (here
    [None]).  A string holding whitespace gives fewer than 12 bytes. *)
Definition ObjectId_of_str (s : string) : option ObjectId :=
    if Nat.eqb (String.length s) 24 then mkObjectId <$> fromhex s else None.

(** [str(oid)] *)
Definition ObjectId_str (o : ObjectId) : string := hexlify (binary o).

Fixpoint bytes_eqb (a b : list byte) : bool :=
  match a, b with
  | [], [] => true
  | x :: a', y :: b' => Byte.eqb x y && bytes_eqb a' b'
  | _, _ => false
  end.

Definition ObjectId_eqb (a b : ObjectId) : bool :=
  bytes_eqb (binary a) (binary b).

End Bson.

Export Bson.

(** ** Values and documents *)

(** The values a document field holds ([Any] in the source). *)
Inductive value :=
| VNone
| VBool (b : bool)
| VNum (q : Q)
| VStr (s : string)
| VOid (o : ObjectId)
| VList (l : list value)
| VDict (kvs : list (string * value)).

(** [Dict[str, Any]] *)
Abbreviation document := (gmap string value).

(** Equality of values as [==] and the store's equality match see it:
    numbers by value, embedded documents field by field in order. *)
Fixpoint value_eqb (a b : value) : bool :=
  match a, b with
  | VNone, VNone => true
  | VBool x, VBool y => Bool.eqb x y
  | VNum x, VNum y => Qeq_bool x y
  | VStr x, VStr y => String.eqb x y
  | VOid x, VOid y => ObjectId_eqb x y
  | VList xs, VList ys =>
      (fix go (xs ys : list value) : bool :=
         match xs, ys with
         | [], [] => true
         | x :: xs', y :: ys' => value_eqb x y && go xs' ys'
         | _, _ => false
         end) xs ys
  | VDict xs, VDict ys =>
      (fix go (xs ys : list (string * value)) : bool :=
         match xs, ys with
         | [], [] => true
         | (k, x) :: xs', (k', y) :: ys' =>
             String.eqb k k' && value_eqb x y && go xs' ys'
         | _, _ => false
         end) xs ys
  | _, _ => false
  end.

(** Python truth value. *)
Definition truthy (v : value) : bool :=
  match v with
  | VNone => false
  | VBool b => b
  | VNum q => negb (Qeq_bool q 0)
  | VStr s => PyStr.nonempty s
  | VOid _ => true
  | VList l => match l with [] => false | _ => true end
  | VDict kvs => match kvs with [] => false | _ => true end
  end.

(** What the handlers take from their environment: the store's regular
    expression engine ([re_compile pattern options] is [None] when the
    store rejects the pattern, otherwise the unanchored search it runs on
    a string), Python's [str()] on numbers, lists and dictionaries, and the
    store's identifier generator. *)
Class Runtime := {
  re_compile : string → string → option (string → bool);
  py_repr : value → string;
  generate_oid : list document → ObjectId
}.

Section Serialize.
Context {R : Runtime}.

(** [str(v)] *)
Definition py_str (v : value) : string :=
    match v with
    | VOid o => ObjectId_str o
    | VStr s => s
    | VNone => "None"
    | VBool true => "True"
    | VBool false => "False"
    | _ => py_repr v
    end.

(** main.py, lines 37-42. *)
Definition serialize_doc (doc : document) : document :=
    let d := doc in
    match d !! "_id" with
    | Some v =>
        if truthy v then <["id" := VStr (py_str v)]> (delete "_id" d) else d
    | None => d
    end.

End Serialize.

(** ** Exceptions *)

Inductive exn :=
| HTTPException (status_code : Z) (detail : string)
| InvalidId
| ValueError
| OperationFailure
| RequestValidationError
| NotImplementedError.

(** A call either returns or raises. *)
Inductive result (A : Type) :=
| Ok (a : A)
| Raise (e : exn).

Arguments Ok {A} a.
Arguments Raise {A} e.

#[global] Instance result_bind : MBind result := λ A B k c,
  match c with
  | Ok a => k a
  | Raise e => Raise e
  end.

#[global] Instance result_fmap : FMap result := λ A B f c,
  match c with
  | Ok a => Ok (f a)
  | Raise e => Raise e
  end.

(** [try: c  except Exception: h] *)
Definition try_except {A : Type} (c : result A) (h : result A) : result A :=
  match c with
  | Ok a => Ok a
  | Raise _ => h
  end.

(** ** The document store as the handlers use it *)

Module Mongo.

(** Query operators appearing in main.py. *)
Inductive operator :=
| OpRegex (pattern options : string)
| OpIn (vs : list value)
| OpNe (v : value)
| OpGte (x : Q)
| OpLte (x : Q).

(** What a query document associates to a field: a value to equal, or a
    dictionary of operators. *)
Inductive condition :=
| Eq (v : value)
| Ops (ops : list operator).

(** A query document, in the order its keys were assigned. *)
Abbreviation query := (list (string * condition)).

(** A collection, in natural order; a database maps names to collections
    (a name never written to is an empty collection). *)
Abbreviation Collection := (list document).
Abbreviation Database := (gmap string Collection).

Definition collection (db : Database) (name : string) : Collection :=
  default [] (db !! name).

(** [bool(db)] on a database handle: the driver's Database objects
    refuse truth testing and raise NotImplementedError. *)
Definition Database_bool (db : Database) : result bool :=
  Raise NotImplementedError.

(** Truth value of the handle the [database] module exports: None is
    false, a Database is asked for its truth value. *)
Definition handle_bool (db : option Database) : result bool :=
  match db with
  | None => Ok false
  | Some db => Database_bool db
  end.

(** The values a field offers to a match: the value itself and, for an
    array, each of its elements. *)
Definition candidates (v : value) : list value :=
  match v with
  | VList l => v :: l
  | _ => [v]
  end.

(** [{field: x}]: the field equals [x] or is an array holding [x]; a
    missing field equals only null. *)
Definition eq_match (fv : option value) (x : value) : bool :=
  match fv with
  | None => value_eqb x VNone
  | Some v => existsb (λ c, value_eqb c x) (candidates v)
  end.

Definition num_match (test : Q → bool) (fv : option value) : bool :=
  match fv with
  | None => false
  | Some v => existsb (λ c, match c with VNum n => test n | _ => false end)
                      (candidates v)
  end.

Definition str_match (test : string → bool) (fv : option value) : bool :=
  match fv with
  | None => false
  | Some v => existsb (λ c, match c with VStr s => test s | _ => false end)
                      (candidates v)
  end.

Section Matching.
Context {R : Runtime}.

Definition op_match (op : operator) (fv : option value) : bool :=
  match op with
  | OpRegex pattern options =>
      match re_compile pattern options with
      | Some search => str_match search fv
      | None => false
      end
  | OpIn vs => existsb (eq_match fv) vs
  | OpNe v => negb (eq_match fv v)
  | OpGte x => num_match (λ n, Qle_bool x n) fv
  | OpLte x => num_match (λ n, Qle_bool n x) fv
  end.

Definition cond_match (c : condition) (fv : option value) : bool :=
  match c with
  | Eq v => eq_match fv v
  | Ops ops => forallb (λ op, op_match op fv) ops
  end.

(** A document matches a query when every field condition holds. *)
Definition matches (q : query) (doc : document) : bool :=
  forallb (λ kc, cond_match (snd kc) (doc !! fst kc)) q.

Definition op_ok (op : operator) : bool :=
  match op with
  | OpRegex pattern options =>
      match re_compile pattern options with Some _ => true | None => false end
  | _ => true
  end.

(** The store refuses a query holding a regular expression it cannot
    compile, whatever the collection holds. *)
Definition query_ok (q : query) : bool :=
  forallb (λ kc, match snd kc with
                 | Eq _ => true
                 | Ops ops => forallb op_ok ops
                 end) q.

Definition run_query (coll : Collection) (q : query) : result (list document) :=
  if query_ok q then Ok (List.filter (matches q) coll)
  else Raise OperationFailure.

(** [coll.count_documents(q)] *)
Definition count_documents (coll : Collection) (q : query) : result nat :=
  docs ← run_query coll q ; Ok (length docs).

(** [coll.find_one(q)]: the first match in natural order, or None. *)
Definition find_one (coll : Collection) (q : query) : result (option document) :=
  docs ← run_query coll q ; Ok (head docs).

(** A cursor is lazy: the query runs when the cursor is iterated. *)
Record Cursor := mkCursor {
  cur_coll : Collection;
  cur_query : query;
  cur_skip : Z;
  cur_limit : Z
}.

(** [coll.find(q)] *)
Definition find (coll : Collection) (q : query) : Cursor :=
  mkCursor coll q 0 0.

(** [cursor.skip(n)]: raises ValueError when [n] is negative. *)
Definition skip (c : Cursor) (n : Z) : result Cursor :=
  if (n <? 0)%Z then Raise ValueError
  else Ok (mkCursor (cur_coll c) (cur_query c) n (cur_limit c)).

(** [cursor.limit(n)] *)
Definition limit (c : Cursor) (n : Z) : Cursor :=
  mkCursor (cur_coll c) (cur_query c) (cur_skip c) n.

(** A limit of 0 is no limit; the driver sends the absolute value of any
    other limit. *)
Definition apply_limit (n : Z) (docs : list document) : list document :=
  if (n =? 0)%Z then docs else take (Z.to_nat (Z.abs n)) docs.

(** Iterating the cursor: matches in natural order, after the skip, up to
    the limit. *)
Definition to_list (c : Cursor) : result (list document) :=
  docs ← run_query (cur_coll c) (cur_query c) ;
  Ok (apply_limit (cur_limit c) (drop (Z.to_nat (cur_skip c)) docs)).

End Matching.

(** Values of a field over a collection, arrays unwound, absent fields
    contributing nothing. *)
Definition field_values (key : string) (doc : document) : list value :=
  match doc !! key with
  | None => []
  | Some (VList l) => l
  | Some v => [v]
  end.

Fixpoint dedup_values (seen : list value) (vs : list value) : list value :=
  match vs with
  | [] => []
  | v :: vs' =>
      if existsb (value_eqb v) seen then dedup_values seen vs'
      else v :: dedup_values (v :: seen) vs'
  end.

(** [coll.distinct(key)], in order of first occurrence. *)
Definition distinct (coll : Collection) (key : string) : list value :=
  dedup_values [] (concat (field_values key <$> coll)).

End Mongo.

Export Mongo.

(** ** Schemas (main.py, lines 68-84) *)

Record Customer := mkCustomer {
  customer_name : string;
  customer_email : string;
  customer_phone : option string;
  customer_address : string
}.

Record OrderItem := mkOrderItem {
  item_product_id : string;
  item_title : string;
  item_price : Q;
  item_quantity : Z;
  item_image : option string
}.

Record OrderIn := mkOrderIn {
  order_customer : Customer;
  order_items : list OrderItem;
  order_payment_method : string
}.

(** [quantity: int = Field(1, ge=1)] is the only declared constraint. *)
Definition OrderItem_valid (i : OrderItem) : bool := (1 <=? item_quantity i)%Z.

Definition OrderIn_valid (o : OrderIn) : bool :=
  forallb OrderItem_valid (order_items o).

Definition opt_str (o : option string) : value :=
  match o with Some s => VStr s | None => VNone end.

Definition Customer_dump (c : Customer) : value :=
  VDict [("name", VStr (customer_name c)); ("email", VStr (customer_email c));
         ("phone", opt_str (customer_phone c));
         ("address", VStr (customer_address c))].

Definition OrderItem_dump (i : OrderItem) : value :=
  VDict [("product_id", VStr (item_product_id i)); ("title", VStr (item_title i));
         ("price", VNum (item_price i));
         ("quantity", VNum (inject_Z (item_quantity i)));
         ("image", opt_str (item_image i))].

(** [order.model_dump()] *)
Definition model_dump (o : OrderIn) : document :=
  <["customer" := Customer_dump (order_customer o)]>
    (<["items" := VList (OrderItem_dump <$> order_items o)]>
       (<["payment_method" := VStr (order_payment_method o)]> ∅)).

(** ** Requests and responses *)

(** Query parameters of [GET /api/products]; an absent parameter is [None]
    and takes the default of the handler's signature. *)
Record ListParams := mkListParams {
  search : option string;
  category : option string;
  materials : option string;
  price_min : option Q;
  price_max : option Q;
  rating_min : option Q;
  page : option Z;
  page_size : option Z
}.

(** [{"items", "total", "page", "page_size"}] *)
Record ProductPage := mkProductPage {
  page_items : list document;
  page_total : nat;
  page_page : Z;
  page_page_size : Z
}.

(** [{"item", "related"}] *)
Record ProductDetail := mkProductDetail {
  detail_item : document;
  detail_related : list document
}.

(** [{"id", "status"}] *)
Record OrderReceipt := mkOrderReceipt {
  receipt_id : string;
  receipt_status : string
}.

(** ** Handlers *)

Section Handlers.
Context {R : Runtime}.

(** Modelled from the spec: [create_document] of the [database] module,
    which main.py imports and which is not among the sources.  It persists
    the given document as it is under a store-assigned identifier and
    returns that identifier as a string. *)
Definition create_document (db : Database) (collection_name : string)
    (data : document) : Database * string :=
  let coll := collection db collection_name in
  let oid := generate_oid coll in
  (<[collection_name := coll ++ [<["_id" := VOid oid]> data]]> db,
   ObjectId_str oid).

Definition featured : list string := ["Chair"; "Sofa"; "Bed"; "Table"; "Decor"].

(** main.py, lines 230-238. *)
Definition get_categories (db : option Database) : list value :=
  match db with
  | None => []
  | Some db =>
      let cats := distinct (collection db "product") "category" in
      let ordered :=
        (VStr <$> featured)
          ++ List.filter (λ c, negb (existsb (λ f, value_eqb c (VStr f)) featured)) cats in
      ordered
  end.

(** [[m.strip() for m in materials.split(",") if m.strip()]] *)
Definition parse_materials (materials : string) : list string :=
  PyStr.strip <$> List.filter (λ m, PyStr.nonempty (PyStr.strip m))
                              (PyStr.split "," materials).

(** The query document [q] that [list_products] builds (lines 253-270). *)
Definition list_products_query (p : ListParams) : query :=
  let q : query := [] in
  let q := match search p with
           | Some s => if PyStr.nonempty s
                       then q ++ [("title", Ops [OpRegex s "i"])] else q
           | None => q
           end in
  let q := match category p with
           | Some c => if PyStr.nonempty c then q ++ [("category", Eq (VStr c))] else q
           | None => q
           end in
  let q := match materials p with
           | Some m =>
               if PyStr.nonempty m then
                 let mats := parse_materials m in
                 match mats with
                 | [] => q
                 | _ => q ++ [("materials", Ops [OpIn (VStr <$> mats)])]
                 end
               else q
           | None => q
           end in
  let q := match price_min p, price_max p with
           | None, None => q
           | lo, hi =>
               let rng := match lo with Some x => [OpGte x] | None => [] end in
               let rng := rng ++ match hi with Some x => [OpLte x] | None => [] end in
               q ++ [("price", Ops rng)]
           end in
  let q := match rating_min p with
           | Some x => q ++ [("rating", Ops [OpGte x])]
           | None => q
           end in
  q.

(** main.py, lines 240-276. *)
Definition list_products (db : option Database) (p : ListParams)
    : result ProductPage :=
  let page := default 1%Z (page p) in
  let page_size := default 12%Z (page_size p) in
  match db with
  | None => Ok (mkProductPage [] 0 page page_size)
  | Some db =>
      let q := list_products_query p in
      total ← count_documents (collection db "product") q;
      let skip := ((page - 1) * page_size)%Z in
      cursor ← Mongo.skip (find (collection db "product") q) skip;
      let cursor := limit cursor page_size in
      docs ← to_list cursor;
      let items := serialize_doc <$> docs in
      Ok (mkProductPage items total page page_size)
  end.

(** [[serialize_doc(d) for d in (coll.find(q).limit(8) if db else [])]]:
    the condition is the truth value of the handle, not a test against
    None as in the other handlers. *)
Definition feed (db : option Database) (name : string) (q : query)
    : result (list document) :=
  let cursor : result (list document) :=
    truth ← handle_bool db;
    match truth, db with
    | true, Some db => to_list (limit (find (collection db name) q) 8)
    | _, _ => Ok []
    end in
  docs ← cursor;
  let items : list document := serialize_doc <$> docs in
  Ok items.

(** main.py, lines 278-282. *)
Definition top_selling (db : option Database) : result (list document) :=
  feed db "product" [("is_top_seller", Eq (VBool true))].

(** main.py, lines 284-288. *)
Definition new_arrivals (db : option Database) : result (list document) :=
  feed db "product" [("is_new", Eq (VBool true))].

(** main.py, lines 310-314. *)
Definition get_testimonials (db : option Database) : result (list document) :=
  feed db "testimonial" [].

(** [ObjectId(product_id)] as a call that may raise. *)
Definition ObjectId_call (product_id : string) : result ObjectId :=
  match ObjectId_of_str product_id with
  | Some oid => Ok oid
  | None => Raise InvalidId
  end.

Definition not_found {A : Type} : result A :=
  Raise (HTTPException 404 "Product not found").

(** main.py, lines 290-304. *)
Definition get_product (db : option Database) (product_id : string)
    : result ProductDetail :=
  match db with
  | None => not_found
  | Some db =>
      doc ← try_except
              (oid ← ObjectId_call product_id;
               find_one (collection db "product") [("_id", Eq (VOid oid))])
              (Raise (HTTPException 400 "Invalid id"));
      match doc with
      | None => not_found
      | Some doc =>
          if bool_decide (doc = ∅) then not_found else
          let prod := serialize_doc doc in
          oid ← ObjectId_call product_id;
          rel_cursor ← to_list
            (limit (find (collection db "product")
                         [("category", Eq (default VNone (prod !! "category")));
                          ("_id", Ops [OpNe (VOid oid)])]) 4);
          let related := serialize_doc <$> rel_cursor in
          Ok (mkProductDetail prod related)
      end
  end.

(** main.py, lines 320-326.  The store after the call is returned with
    the response. *)
Definition create_order (db : option Database) (order : OrderIn)
    : result (OrderReceipt * Database) :=
  match db with
  | None => Raise (HTTPException 500 "Database not available")
  | Some db =>
      let order_dict := model_dump order in
      let '(db', order_id) := create_document db "order" order_dict in
      Ok (mkOrderReceipt order_id "received", db')
  end.

(** ** Routes *)

Inductive request :=
| GetCategories
| GetProducts (p : ListParams)
| GetTopSelling
| GetNewArrivals
| GetProduct (product_id : string)
| GetTestimonials
| PostOrders (body : OrderIn).

Inductive response :=
| Categories (categories : list value)
| Page (envelope : ProductPage)
| Items (items : list document)
| Detail (detail : ProductDetail)
| Receipt (receipt : OrderReceipt).

(** Read endpoints are the GET routes. *)
Definition is_read (r : request) : bool :=
  match r with PostOrders _ => false | _ => true end.

(** The routing table of the application: each route runs its handler on
    the store handle; the body of [POST /api/orders] is validated against
    [OrderIn] before [create_order] runs. *)
Definition app (db : option Database) (r : request)
    : result response * option Database :=
  match r with
  | GetCategories => (Ok (Categories (get_categories db)), db)
  | GetProducts p => (Page <$> list_products db p, db)
  | GetTopSelling => (Items <$> top_selling db, db)
  | GetNewArrivals => (Items <$> new_arrivals db, db)
  | GetProduct product_id => (Detail <$> get_product db product_id, db)
  | GetTestimonials => (Items <$> get_testimonials db, db)
  | PostOrders body =>
      if OrderIn_valid body then
        match create_order db body with
        | Ok (receipt, db') => (Ok (Receipt receipt), Some db')
        | Raise e => (Raise e, db)
        end
      else (Raise RequestValidationError, db)
  end.

End Handlers.

(** ** The regular expressions of the search filter

    The store compiles [$regex] patterns with PCRE.  This module gives the
    meaning of the patterns made of ordinary characters and [.], which is
    all the statements about the search filter need; a pattern using any
    other metacharacter is outside it ([None]). *)

Module Pcre.

Inductive atom :=
| Lit (c : ascii)
| AnyChar.

Definition metachars : string := "\^$.|?*+()[]{}".

Definition is_meta (c : ascii) : bool := PyStr.contains_char c metachars.

(** A pattern free of metacharacters stands for itself. *)
Definition literal (pattern : string) : bool :=
  forallb (λ c, negb (is_meta c)) (list_ascii_of_string pattern).

Fixpoint parse (pattern : string) : option (list atom) :=
  match pattern with
  | EmptyString => Some []
  | String c rest =>
      if Ascii.eqb c "." then cons AnyChar <$> parse rest
      else if is_meta c then None
      else cons (Lit c) <$> parse rest
  end.

Definition newline : ascii := ascii_of_N 10.

(** One atom against one character; [caseless] is the [i] option. *)
Definition atom_match (caseless : bool) (a : atom) (c : ascii) : bool :=
  match a with
  | Lit x =>
      if caseless then Ascii.eqb (PyStr.lower_char x) (PyStr.lower_char c)
      else Ascii.eqb x c
  | AnyChar => negb (Ascii.eqb c newline)
  end.

(** The atoms match a prefix of [s]. *)
Fixpoint match_here (caseless : bool) (atoms : list atom) (s : string) : bool :=
  match atoms with
  | [] => true
  | a :: atoms' =>
      match s with
      | EmptyString => false
      | String c s' => atom_match caseless a c && match_here caseless atoms' s'
      end
  end.

(** Unanchored search: the atoms match at some position of [s]. *)
Fixpoint search_from (caseless : bool) (atoms : list atom) (s : string) : bool :=
  match_here caseless atoms s
  || match s with
     | EmptyString => false
     | String _ s' => search_from caseless atoms s'
     end.

Definition compile (pattern options : string) : option (string → bool) :=
  caseless ← (if String.eqb options "i" then Some true
              else if String.eqb options "" then Some false else None);
  atoms ← parse pattern;
  Some (search_from caseless atoms).

End Pcre.

(** ** A concrete runtime, to evaluate the handlers on examples *)

Module Sample.

Definition oid_of_nat (n : nat) : ObjectId :=
  mkObjectId (replicate 11 Byte.x00
                ++ [default Byte.x00 (Byte.of_N (N.of_nat n mod 256))]).

(** PCRE on the patterns of [Pcre] and no others, a placeholder for the
    renderings [py_str] leaves to the runtime, identifiers numbered by
    collection size. *)
Definition runtime : Runtime := {|
  re_compile := Pcre.compile;
  py_repr := λ _, "?";
  generate_oid := λ coll, oid_of_nat (length coll)
|}.

Definition no_filter : ListParams :=
  mkListParams None None None None None None None None.

Definition oid1 : ObjectId := oid_of_nat 1.
Definition oid2 : ObjectId := oid_of_nat 2.

Definition product (oid : ObjectId) (title cat : string) (mats : list string)
    (top new : bool) : document :=
  <["_id" := VOid oid]>
    (<["title" := VStr title]>
       (<["category" := VStr cat]>
          (<["materials" := VList (VStr <$> mats)]>
             (<["is_top_seller" := VBool top]>
                (<["is_new" := VBool new]> ∅))))).

Definition chair : document := product oid1 "Aero Lounge Chair" "Chair" ["Leather"; "Oak"] true false.
Definition sofa : document := product oid2 "Cloud XL Sofa" "Sofa" ["Fabric"; "Pine"] true true.

Definition store : Database := <["product" := [chair; sofa]]> ∅.

Definition oid3 : ObjectId := oid_of_nat 3.
Definition oak_shelf : document := product oid3 "Oak Shelf" "Decor" ["Oak"] false false.
Definition lamp : document := product oid3 "Halo Lamp" "Lamp" ["Brass"] false true.
Definition pendant : document := product oid2 "Halo Pendant Light" "Decor" ["Brass"] false true.

(** Products in the categories Decor, Chair and Lamp. *)
Definition decor_chair_lamp : Database := <["product" := [pendant; chair; lamp]]> ∅.

Definition customer : Customer :=
  mkCustomer "Amelia R." "amelia@example.com" None "1 Elm Street".

(** An order with no items. *)
Definition empty_order : OrderIn := mkOrderIn customer [] "COD".

Definition oak_or_leather : ListParams :=
  mkListParams None None (Some "Oak,Leather") None None None None None.

(** The same request written with blanks and empty pieces. *)
Definition oak_or_leather_spaced : ListParams :=
  mkListParams None None (Some " Oak , ,Leather,") None None None None None.

Definition search_for (s : string) : ListParams :=
  mkListParams (Some s) None None None None None None None.

End Sample.

(** ** Identifier validation and startup seeding *)

(** [ObjectId.is_valid(s)] on a string: false when [s] is empty, otherwise
    whether [ObjectId(s)] returns. *)
Definition ObjectId_is_valid (s : string) : bool :=
  PyStr.nonempty s
  && match ObjectId_of_str s with Some _ => true | None => false end.

(** main.py, lines 29-35: [PyObjectId.validate].  An ObjectId is returned
    as it is; a string is checked with [ObjectId.is_valid] and converted;
    for any other value [is_valid] is false (the value is falsy, or
    [ObjectId] raises TypeError on it). *)
Definition PyObjectId_validate (v : value) : result ObjectId :=
  match v with
  | VOid o => Ok o
  | VStr s => if negb (ObjectId_is_valid s) then Raise ValueError
              else ObjectId_call s
  | _ => Raise ValueError
  end.

(** A dictionary literal. *)
Definition dict (kvs : list (string * value)) : document := list_to_map kvs.

(** main.py, lines 99-165. *)
Definition sample_products : list document := [
  dict [("title", VStr "Aero Lounge Chair");
        ("description", VStr "Premium leather lounge chair with oak base.");
        ("price", VNum 499); ("category", VStr "Chair"); ("rating", VNum (46 # 10));
        ("materials", VList [VStr "Leather"; VStr "Oak"]);
        ("images", VList [VStr "https://images.unsplash.com/photo-1549187774-b4e9b0445b41?q=80&w=1200"]);
        ("is_new", VBool false); ("is_top_seller", VBool true)];
  dict [("title", VStr "Cloud XL Sofa");
        ("description", VStr "Deep, ultra-comfy 3-seater fabric sofa.");
        ("price", VNum 1299); ("category", VStr "Sofa"); ("rating", VNum (48 # 10));
        ("materials", VList [VStr "Fabric"; VStr "Pine"]);
        ("images", VList [VStr "https://images.unsplash.com/photo-1586023492125-27b2c045efd7?q=80&w=1200"]);
        ("is_new", VBool true); ("is_top_seller", VBool true)];
  dict [("title", VStr "Nordic Queen Bed");
        ("description", VStr "Minimal solid wood queen bed frame.");
        ("price", VNum 899); ("category", VStr "Bed"); ("rating", VNum (45 # 10));
        ("materials", VList [VStr "Walnut"]);
        ("images", VList [VStr "https://images.unsplash.com/photo-1505691723518-36a5ac3be353?q=80&w=1200"]);
        ("is_new", VBool true); ("is_top_seller", VBool false)];
  dict [("title", VStr "Arc Dining Table");
        ("description", VStr "Round marble dining table with steel base.");
        ("price", VNum 999); ("category", VStr "Table"); ("rating", VNum (47 # 10));
        ("materials", VList [VStr "Marble"; VStr "Steel"]);
        ("images", VList [VStr "https://images.unsplash.com/photo-1600491030793-4bd19ae2c909?q=80&w=1200"]);
        ("is_new", VBool false); ("is_top_seller", VBool true)];
  dict [("title", VStr "Halo Pendant Light");
        ("description", VStr "Matte brass ring pendant lighting.");
        ("price", VNum 199); ("category", VStr "Decor"); ("rating", VNum (43 # 10));
        ("materials", VList [VStr "Brass"]);
        ("images", VList [VStr "https://images.unsplash.com/photo-1505691938895-1758d7feb511?q=80&w=1200"]);
        ("is_new", VBool true); ("is_top_seller", VBool false)]
].

(** main.py, lines 170-186. *)
Definition testimonials : list document := [
  dict [("name", VStr "Amelia R.");
        ("message", VStr "Beautiful designs and outstanding quality. My living room feels brand new!");
        ("rating", VNum 5)];
  dict [("name", VStr "Noah P.");
        ("message", VStr "Fast delivery and great customer service. The sofa is insanely comfy.");
        ("rating", VNum 5)];
  dict [("name", VStr "Sophia L.");
        ("message", VStr "Minimal yet luxurious. Exactly the vibe I wanted.");
        ("rating", VNum 4)]
].

Section Startup.
Context {R : Runtime}.

(** [for d in docs: create_document(name, d)] *)
Definition create_documents (db : Database) (name : string)
    (docs : list document) : Database :=
  foldl (λ db d, (create_document db name d).1) db docs.

(** main.py, lines 93-188: the startup hook.  The store after the hook is
    returned. *)
Definition seed_data (db : option Database) : result (option Database) :=
  match db with
  | None => Ok None
  | Some db =>
      n ← count_documents (collection db "product") [];
      let db := if Nat.eqb n 0 then create_documents db "product" sample_products
                else db in
      m ← count_documents (collection db "testimonial") [];
      let db := if Nat.eqb m 0 then create_documents db "testimonial" testimonials
                else db in
      Ok (Some db)
  end.

End Startup.

Section Pages.
Context {R : Runtime}.

(** The items of page [k] of a listing, empty when the call raises. *)
Definition page_of (db : Database) (p : ListParams) (ps : Z) (k : nat)
    : list document :=
  match list_products (Some db) (mkListParams (search p) (category p) (materials p) (price_min p) (price_max p) (rating_min p) (Some (Z.of_nat k)) (Some ps)) with
  | Ok env => page_items env
  | Raise _ => []
  end.

End Pages.

(** ** More sample data *)

Module Demo.

(** The first seeded product, as stored. *)
Definition aero : document :=
  <["_id" := VOid Sample.oid1]> (default ∅ (head sample_products)).

(** A document whose [_id] is the number 0. *)
Definition zero_id : document := dict [("_id", VNum 0); ("title", VStr "Untitled")].

Definition priced (lo hi : Q) : ListParams :=
  mkListParams None None None (Some lo) (Some hi) None None None.

Definition rated (lo : Q) : ListParams :=
  mkListParams None None None None None (Some lo) None None.

Definition in_category (c : string) : ListParams :=
  mkListParams None (Some c) None None None None None None.

(** An order for zero chairs. *)
Definition zero_quantity : OrderIn :=
  mkOrderIn Sample.customer [mkOrderItem "p1" "Aero Lounge Chair" 499 0 None] "COD".

End Demo.

(** ** Notions used by the statements *)

(** A stored product as the schema has it: a store-assigned identifier and
    a string category. *)
Definition stored_product (doc : document) : Prop :=
  (∃ oid, doc !! "_id" = Some (VOid oid)) ∧ (∃ c, doc !! "category" = Some (VStr c)).

(** The same filters at another page. *)
Definition at_page (p : ListParams) (pg ps : option Z) : ListParams :=
  mkListParams (search p) (category p) (materials p) (price_min p)
               (price_max p) (rating_min p) pg ps.

Definition without_materials (p : ListParams) : ListParams :=
  mkListParams (search p) (category p) None (price_min p)
               (price_max p) (rating_min p) (page p) (page_size p).

Definition without_search (p : ListParams) : ListParams :=
  mkListParams None (category p) (materials p) (price_min p)
               (price_max p) (rating_min p) (page p) (page_size p).

(** The part of the query each parameter contributes. *)
Definition search_part (p : ListParams) : query :=
  match search p with
  | Some s => if PyStr.nonempty s then [("title", Ops [OpRegex s "i"])] else []
  | None => []
  end.

Definition category_part (p : ListParams) : query :=
  match category p with
  | Some c => if PyStr.nonempty c then [("category", Eq (VStr c))] else []
  | None => []
  end.

Definition price_part (p : ListParams) : query :=
  match price_min p, price_max p with
  | None, None => []
  | lo, hi =>
      [("price", Ops (match lo with Some x => [OpGte x] | None => [] end
                      ++ match hi with Some x => [OpLte x] | None => [] end))]
  end.

Definition rating_part (p : ListParams) : query :=
  match rating_min p with
  | Some x => [("rating", Ops [OpGte x])]
  | None => []
  end.

Definition materials_part (p : ListParams) : query :=
  match materials p with
  | Some m =>
      if PyStr.nonempty m then
        match parse_materials m with
        | [] => []
        | mats => [("materials", Ops [OpIn (VStr <$> mats)])]
        end
      else []
  | None => []
  end.

(** The test the related-products query puts on a document: the category
    of the requested product, and another identifier. *)
Definition related_to (item_category : value) (oid : ObjectId)
    (doc : document) : bool :=
  eq_match (doc !! "category") item_category
  && negb (eq_match (doc !! "_id") (VOid oid)).

Definition hex_string (s : string) : Prop :=
  Forall (λ c, is_Some (hexval c)) (list_ascii_of_string s).

(** The strings [bytes.fromhex] accepts: pairs of hexadecimal digits with
    ASCII whitespace allowed before each pair and at the end. *)
Inductive hex_pairs : string → Prop :=
| hex_pairs_nil : hex_pairs ""
| hex_pairs_space (c : ascii) (s : string) :
    is_ascii_space c = true → hex_pairs s → hex_pairs (String c s)
| hex_pairs_pair (h l : ascii) (s : string) :
    is_Some (hexval h) → is_Some (hexval l) → hex_pairs s →
    hex_pairs (String h (String l s)).

(** A string of ASCII characters. *)
Definition ascii_only (s : string) : Prop :=
  Forall (λ c, (N_of_ascii c < 128)%N) (list_ascii_of_string s).

(** A string that neither starts nor ends with whitespace. *)
Definition trimmed (t : string) : Prop :=
  (∀ c t', t = String c t' → PyStr.isspace c = false)
  ∧ (∀ t' c, t = t' +:+ String c "" → PyStr.isspace c = false).

(** The ASCII whitespace characters of [str.isspace], by code. *)
Definition space_codes : list N := [9; 10; 11; 12; 13; 28; 29; 30; 31; 32]%N.

(** The runtime [R] with PCRE, as [Pcre] gives it, for its engine. *)
Definition with_pcre (R : Runtime) : Runtime := {|
  re_compile := Pcre.compile;
  py_repr := py_repr;
  generate_oid := generate_oid
|}.

(** An empty or degraded envelope. *)
Definition degraded (resp : response) : Prop :=
  match resp with
  | Categories cs => cs = []
  | Page env => page_items env = [] ∧ page_total env = 0
  | Items l => l = []
  | Detail _ | Receipt _ => False
  end.

Definition all_space (s : string) : Prop :=
  Forall (λ c, PyStr.isspace c = true) (list_ascii_of_string s).

Definition without_category (p : ListParams) : ListParams :=
  mkListParams (search p) None (materials p) (price_min p)
               (price_max p) (rating_min p) (page p) (page_size p).

Definition without_price (p : ListParams) : ListParams :=
  mkListParams (search p) (category p) (materials p) None None
               (rating_min p) (page p) (page_size p).

Definition without_rating (p : ListParams) : ListParams :=
  mkListParams (search p) (category p) (materials p) (price_min p)
               (price_max p) None (page p) (page_size p).

(** The documents a listing selects, before pagination. *)
Definition matching {R : Runtime} (db : Database) (p : ListParams) : list document :=
  List.filter (matches (list_products_query p)) (collection db "product").

(** ** Values and identifiers *)

Lemma bind_Ok {A B : Type} (a : A) (k : A → result B) : (Ok a ≫= k) = k a.
Proof. reflexivity. Qed.

Lemma bytes_eqb_eq (a b : list byte) : bytes_eqb a b = true ↔ a = b.
Proof.
  revert b. induction a as [|x a IH]; intros [|y b]; simpl; try (split; congruence).
  rewrite andb_true_iff, IH. split.
  - intros [Hxy ->]. apply Byte.byte_dec_bl in Hxy. by subst.
  - intros [= -> ->]. split; [by apply Byte.byte_dec_lb | done].
Qed.

Lemma ObjectId_eqb_eq (a b : ObjectId) : ObjectId_eqb a b = true ↔ a = b.
Proof.
  unfold ObjectId_eqb. rewrite bytes_eqb_eq.
  destruct a, b; simpl. split; congruence.
Qed.

Lemma hex_byte (b : byte) :
  let n := Byte.to_N b in
  hexval (hexdigit (n / 16)) = Some (n / 16)%N
  ∧ hexval (hexdigit (n mod 16)) = Some (n mod 16)%N
  ∧ Byte.of_N (16 * (n / 16) + n mod 16) = Some b
  ∧ is_ascii_space (hexdigit (n / 16)) = false.
Proof. destruct b; vm_compute; done. Qed.

Lemma fromhex_hexlify (bs : list byte) : fromhex (hexlify bs) = Some bs.
Proof.
  induction bs as [|b bs IH]; [done|].
  destruct (hex_byte b) as (H1 & H2 & H3 & H4).
  cbn [hexlify fromhex]. cbv zeta. rewrite H4, H1, H2, H3, IH. done.
Qed.

Lemma ObjectId_str_inj (a b : ObjectId) : ObjectId_str a = ObjectId_str b → a = b.
Proof.
  unfold ObjectId_str. intros H.
  assert (Some (binary a) = Some (binary b)) as [= Hb]
    by (rewrite <- !fromhex_hexlify; by rewrite H).
  destruct a, b; simpl in *; congruence.
Qed.

Lemma hexval_bound (c : ascii) (n : N) : hexval c = Some n → (n < 16)%N.
Proof.
  destruct c as [[] [] [] [] [] [] [] []]; vm_compute; intros [= <-]; done.
Qed.

Lemma hexval_not_space (c : ascii) :
  is_Some (hexval c) → is_ascii_space c = false.
Proof.
  destruct c as [[] [] [] [] [] [] [] []]; vm_compute; (done || by intros [? [=]]).
Qed.

Lemma hexval_lower (c : ascii) : hexval (PyStr.lower_char c) = hexval c.
Proof. destruct c as [[] [] [] [] [] [] [] []]; vm_compute; reflexivity. Qed.

Lemma is_ascii_space_lower (c : ascii) :
  is_ascii_space (PyStr.lower_char c) = is_ascii_space c.
Proof. destruct c as [[] [] [] [] [] [] [] []]; vm_compute; reflexivity. Qed.

Lemma hexdigit_hexval (c : ascii) (a : N) :
  hexval c = Some a → hexdigit a = PyStr.lower_char c.
Proof.
  destruct c as [[] [] [] [] [] [] [] []]; vm_compute; intros [= <-]; reflexivity.
Qed.

Lemma length_lower (s : string) : String.length (PyStr.lower s) = String.length s.
Proof. induction s as [|c s IH]; simpl; [done | by rewrite IH]. Qed.

Lemma hex_pair_byte (a b : N) :
  (a < 16)%N → (b < 16)%N →
  ∃ x, Byte.of_N (16 * a + b) = Some x
       ∧ (Byte.to_N x / 16)%N = a ∧ (Byte.to_N x mod 16)%N = b.
Proof.
  intros Ha Hb. destruct (Byte.of_N (16 * a + b)) as [x|] eqn:Hx.
  - exists x. split; [done|]. apply Byte.to_of_N in Hx. rewrite Hx. split.
    + symmetry. apply N.div_unique with b; lia.
    + symmetry. apply N.mod_unique with a; lia.
  - apply Byte.of_N_None_iff in Hx. lia.
Qed.

(** [bytes.fromhex] accepts exactly the strings of [hex_pairs]. *)
Lemma fromhex_pairs (s : string) : is_Some (fromhex s) ↔ hex_pairs s.
Proof.
  split.
  - assert (∀ n s, (String.length s ≤ n)%nat → is_Some (fromhex s) → hex_pairs s)
      as H; [|by apply (H (String.length s))].
    clear s. intros n. induction n as [|n IH]; intros s Hn Hs.
    + destruct s; [constructor | simpl in Hn; lia].
    + destruct s as [|h rest]; [constructor|]. simpl in Hn. cbn [fromhex] in Hs.
      destruct (is_ascii_space h) eqn:Hsp.
      * apply hex_pairs_space; [done | apply IH; [lia | done]].
      * destruct rest as [|l s]; [by destruct Hs|]. simpl in Hn.
        destruct (hexval h) as [a|] eqn:Ha; [|by destruct Hs].
        destruct (hexval l) as [b|] eqn:Hb; [|by destruct Hs].
        destruct (Byte.of_N (16 * a + b)); [|by destruct Hs].
        destruct (fromhex s) eqn:Hf; [|by destruct Hs].
        apply hex_pairs_pair; [by rewrite Ha | by rewrite Hb |].
        apply IH; [lia | by rewrite Hf].
  - induction 1 as [|c s Hc _ IH|h l s Hh Hl _ IH].
    + by eexists.
    + cbn [fromhex]. by rewrite Hc.
    + cbn [fromhex]. rewrite (hexval_not_space h Hh).
      destruct Hh as [a Ha], Hl as [b Hb], IH as [xs Hxs]. rewrite Ha, Hb, Hxs.
      destruct (hex_pair_byte a b) as (x & -> & _);
        [by eapply hexval_bound | by eapply hexval_bound | by eexists].
Qed.

(** What [ObjectId] accepts: the strings of length 24 that [bytes.fromhex]
    accepts. *)
Lemma ObjectId_of_str_well_formed (s : string) :
  is_Some (ObjectId_of_str s) ↔ String.length s = 24%nat ∧ hex_pairs s.
Proof.
  unfold ObjectId_of_str. destruct (Nat.eqb_spec (String.length s) 24) as [E|E].
  - rewrite fmap_is_Some, fromhex_pairs. tauto.
  - split; [by intros [? [=]] | by intros [? _]].
Qed.

(** A character that is neither a hexadecimal digit nor ASCII whitespace
    makes a string unacceptable. *)
Lemma hex_pairs_chars (s : string) (c : ascii) :
  hex_pairs s → c ∈ list_ascii_of_string s →
  is_Some (hexval c) ∨ is_ascii_space c = true.
Proof.
  induction 1 as [|c' s Hc _ IH|h l s Hh Hl _ IH]; simpl.
  - by intros ?%elem_of_nil.
  - intros [->|Hin]%elem_of_cons; [by right | by apply IH].
  - intros [->|[->|Hin]%elem_of_cons]%elem_of_cons; [by left | by left | by apply IH].
Qed.

(** On a string of hexadecimal digits alone, [bytes.fromhex] gives one
    byte per pair, and rendering them gives the string in lower case. *)
Lemma fromhex_hex_string (n : nat) (s : string) :
  String.length s = (2 * n)%nat → hex_string s →
  ∃ bs, fromhex s = Some bs ∧ hexlify bs = PyStr.lower s ∧ length bs = n.
Proof.
  revert s. induction n as [|n IH]; intros s Hn Hs.
  - destruct s; [by exists [] | simpl in Hn; lia].
  - destruct s as [|h [|l s]]; simpl in Hn; try lia.
    unfold hex_string in Hs. simpl in Hs.
    apply Forall_cons in Hs as [Hh Hs]. apply Forall_cons in Hs as [Hl Hs].
    destruct (IH s) as (xs & Hxs & Hlow & Hlen); [lia | done |].
    cbn [fromhex]. rewrite (hexval_not_space h Hh).
    destruct Hh as [a Ha], Hl as [b Hb]. rewrite Ha, Hb, Hxs.
    destruct (hex_pair_byte a b) as (x & -> & Hd & Hm);
      [by eapply hexval_bound | by eapply hexval_bound |].
    exists (x :: xs). split; [done|]. split; [|simpl; by rewrite Hlen].
    cbn [hexlify PyStr.lower]. cbv zeta. rewrite Hd, Hm.
    by rewrite (hexdigit_hexval _ _ Ha), (hexdigit_hexval _ _ Hb), Hlow.
Qed.

Lemma hex_string_pairs (n : nat) (s : string) :
  String.length s = (2 * n)%nat → hex_string s → hex_pairs s.
Proof.
  intros Hn Hs. apply fromhex_pairs.
  destruct (fromhex_hex_string n s Hn Hs) as (bs & -> & _). by eexists.
Qed.

Lemma ObjectId_of_str_hex (s : string) :
  String.length s = 24%nat → hex_string s →
  ∃ o, ObjectId_of_str s = Some o
       ∧ ObjectId_str o = PyStr.lower s ∧ length (binary o) = 12%nat.
Proof.
  intros Hlen Hs. destruct (fromhex_hex_string 12 s Hlen Hs) as (bs & Hbs & Hlow & Hl).
  exists (mkObjectId bs). unfold ObjectId_of_str, ObjectId_str.
  by rewrite Hlen, Hbs.
Qed.

Fixpoint value_eqb_refl (v : value) : value_eqb v v = true.
Proof.
  destruct v as [| b | q | s | o | l | kvs]; simpl.
  - done.
  - by destruct b.
  - apply Qeq_bool_iff. reflexivity.
  - apply String.eqb_refl.
  - by apply ObjectId_eqb_eq.
  - induction l as [|x l IH]; [done|]. by rewrite value_eqb_refl, IH.
  - induction kvs as [|[k x] kvs IH]; [done|].
    by rewrite String.eqb_refl, value_eqb_refl, IH.
Qed.

Lemma value_eqb_VStr_r (v : value) (s : string) :
  value_eqb v (VStr s) = true ↔ v = VStr s.
Proof.
  destruct v; simpl; try (split; congruence).
  rewrite String.eqb_eq. split; congruence.
Qed.

Lemma value_eqb_VOid (a b : ObjectId) :
  value_eqb (VOid a) (VOid b) = true ↔ a = b.
Proof. simpl. apply ObjectId_eqb_eq. Qed.

(** ** Python strings *)

Section PyStrFacts.
Import PyStr.

Lemma append_cons (c : ascii) (a b : string) :
  String c a +:+ b = String c (a +:+ b).
Proof. reflexivity. Qed.

Lemma append_nil (b : string) : "" +:+ b = b.
Proof. reflexivity. Qed.

Lemma nonempty_iff (s : string) : nonempty s = true ↔ s ≠ "".
Proof. destruct s; simpl; split; congruence. Qed.

Lemma split_not_nil (sep : ascii) (s : string) : split sep s ≠ [].
Proof.
  destruct s as [|c s]; simpl; [done|].
  destruct (Ascii.eqb c sep); [done|]. by destruct (split sep s).
Qed.

Lemma join_cons (sep : ascii) (t : string) (ts : list string) :
  ts ≠ [] → join sep (t :: ts) = t +:+ String sep (join sep ts).
Proof. by destruct ts. Qed.

(** Splitting loses nothing: joining the pieces gives the string back. *)
Lemma join_split (sep : ascii) (s : string) : join sep (split sep s) = s.
Proof.
  induction s as [|c s IH]; simpl; [done|].
  destruct (Ascii.eqb c sep) eqn:E.
  - apply Ascii.eqb_eq in E as ->.
    rewrite join_cons by apply split_not_nil. by rewrite append_nil, IH.
  - destruct (split sep s) as [|t ts] eqn:Es; [by apply split_not_nil in Es|].
    destruct ts as [|t' ts]; [simpl in *; by rewrite IH|].
    rewrite join_cons in IH |- * by done.
    by rewrite append_cons, IH.
Qed.

(** No piece holds the separator. *)
Lemma split_no_sep (sep : ascii) (s piece : string) :
  piece ∈ split sep s → contains_char sep piece = false.
Proof.
  revert piece. induction s as [|c s IH]; simpl; intros piece.
  - by intros ->%list_elem_of_singleton.
  - destruct (Ascii.eqb c sep) eqn:E.
    + intros [->|H]%elem_of_cons; [done | by apply IH].
    + destruct (split sep s) as [|t ts] eqn:Es; [by apply split_not_nil in Es|].
      intros [->|H]%elem_of_cons.
      * unfold contains_char. simpl.
        rewrite Ascii.eqb_sym, E. apply (IH t), list_elem_of_here.
      * apply IH. by apply list_elem_of_further.
Qed.

Lemma lstrip_decomp (s : string) : ∃ l, s = l +:+ lstrip s ∧ all_space l.
Proof.
  induction s as [|c s (l & Hl & Hs)]; simpl.
  - exists "". split; [done | constructor].
  - destruct (isspace c) eqn:E.
    + exists (String c l). rewrite append_cons, <- Hl. split; [done | by constructor].
    + exists "". split; [done | constructor].
Qed.

Lemma rstrip_decomp (s : string) : ∃ r, s = rstrip s +:+ r ∧ all_space r.
Proof.
  induction s as [|c s (r & Hr & Hs)]; simpl.
  - exists "". split; [done | constructor].
  - destruct (rstrip s) as [|c' t] eqn:Et.
    + rewrite append_nil in Hr. subst r. destruct (isspace c) eqn:E.
      * exists (String c s). split; [done | by constructor].
      * exists s. done.
    + exists r. rewrite !append_cons in *. by rewrite <- Hr.
Qed.

Lemma rstrip_cons (c : ascii) (s : string) :
  isspace c = false → rstrip (String c s) = String c (rstrip s).
Proof. intros E. simpl. rewrite E. by destruct (rstrip s). Qed.

Lemma rstrip_step (c : ascii) (s : string) :
  rstrip (String c s)
  = match rstrip s with
    | "" => if isspace c then "" else String c ""
    | t => String c t
    end.
Proof. reflexivity. Qed.

Lemma rstrip_idemp (s : string) : rstrip (rstrip s) = rstrip s.
Proof.
  induction s as [|c s IH]; [done|].
  rewrite (rstrip_step c s). destruct (rstrip s) as [|c' t] eqn:Et.
  - destruct (isspace c) eqn:E; [done|].
    rewrite rstrip_step. cbn [rstrip]. by rewrite E.
  - by rewrite rstrip_step, IH.
Qed.

Lemma lstrip_head (s : string) :
  match lstrip s with "" => True | String c _ => isspace c = false end.
Proof.
  induction s as [|c s IH]; simpl; [done|].
  destruct (isspace c) eqn:E; [done | by simpl].
Qed.

Lemma rstrip_last (s t' : string) (c : ascii) :
  rstrip s = t' +:+ String c "" → isspace c = false.
Proof.
  revert t'. induction s as [|a s IH]; intros t'.
  - simpl. by destruct t'.
  - rewrite rstrip_step. destruct (rstrip s) as [|b u] eqn:Eu.
    + destruct (isspace a) eqn:Ea; [by destruct t'|].
      destruct t' as [|a' t']; [by intros [= <-]|].
      intros [= _ H]. by destruct t'.
    + destruct t' as [|a' t']; [done|].
      rewrite append_cons. intros [= _ H]. by apply (IH t').
Qed.

(** [strip] removes whitespace at both ends and nothing else, and leaves
    no whitespace at either end. *)
Lemma strip_spec (s : string) :
  (∃ l r, s = l +:+ strip s +:+ r ∧ all_space l ∧ all_space r)
  ∧ trimmed (strip s).
Proof.
  unfold strip. split; [|split].
  - destruct (lstrip_decomp s) as (l & Hl & Hls).
    destruct (rstrip_decomp (lstrip s)) as (r & Hr & Hrs).
    exists l, r. by rewrite <- Hr.
  - intros c t' Ht. pose proof (lstrip_head s) as H.
    destruct (lstrip s) as [|a u]; [done|].
    rewrite rstrip_cons in Ht by done. by injection Ht as <- _.
  - intros t' c. apply rstrip_last.
Qed.

Lemma isspace_codes (c : ascii) :
  isspace c = true ↔ N_of_ascii c ∈ space_codes.
Proof.
  assert (isspace c = bool_decide (N_of_ascii c ∈ space_codes)) as ->
    by (destruct c as [[] [] [] [] [] [] [] []]; vm_compute; reflexivity).
  apply bool_decide_eq_true.
Qed.

End PyStrFacts.

(** ** Regular expressions without metacharacters *)

Section PcreFacts.
Import PyStr Pcre.

Lemma parse_literal (s : string) :
  literal s = true → parse s = Some (Lit <$> list_ascii_of_string s).
Proof.
  unfold literal. induction s as [|c s IH]; simpl; [done|].
  intros [Hc Hs]%andb_true_iff. apply negb_true_iff in Hc.
  destruct (Ascii.eqb c ".") eqn:E.
  - apply Ascii.eqb_eq in E. subst c. done.
  - rewrite Hc, IH by done. done.
Qed.

Lemma match_here_literal (s t : string) :
  match_here true (Lit <$> list_ascii_of_string s) t = true
  ↔ ∃ post, lower t = lower s +:+ post.
Proof.
  revert t. induction s as [|c s IH]; intros t; simpl.
  - split; [by exists (lower t) | done].
  - destruct t as [|d t]; simpl.
    + split; [done | by intros [? [=]]].
    + rewrite andb_true_iff, Ascii.eqb_eq, IH. split.
      * intros [-> [post ->]]. by exists post.
      * intros [post [= -> ->]]. split; [done | by exists post].
Qed.

(** On a pattern free of metacharacters the caseless search is the
    case-insensitive substring test. *)
Lemma search_from_literal (s t : string) :
  search_from true (Lit <$> list_ascii_of_string s) t = true ↔ icontains s t.
Proof.
  unfold icontains. induction t as [|d t IH]; simpl.
  - rewrite orb_false_r, match_here_literal. simpl. split.
    + intros [post H]. by exists "", post.
    + intros (pre & post & H). destruct pre; [by exists post | done].
  - rewrite orb_true_iff, match_here_literal, IH. simpl. split.
    + intros [[post H]|(pre & post & H)].
      * by exists "", post.
      * exists (String (lower_char d) pre), post. simpl. by rewrite H.
    + intros (pre & post & H). destruct pre as [|a pre]; simpl in H.
      * left. by exists post.
      * right. injection H as _ H. by exists pre, post.
Qed.

Lemma compile_literal (s : string) :
  literal s = true →
  ∃ m, compile s "i" = Some m ∧ ∀ t, m t = true ↔ icontains s t.
Proof.
  intros H. unfold compile. simpl. rewrite (parse_literal _ H). simpl.
  eexists. split; [done|]. apply search_from_literal.
Qed.

End PcreFacts.

(** ** Properties of the handlers *)

Section Properties.
Context {R : Runtime}.

Lemma serialize_doc_oid (doc : document) (oid : ObjectId) :
  doc !! "_id" = Some (VOid oid) →
  serialize_doc doc = <["id" := VStr (ObjectId_str oid)]> (delete "_id" doc).
Proof. intros H. unfold serialize_doc. by rewrite H. Qed.

Lemma serialize_doc_other (doc : document) (k : string) :
  k ≠ "_id" → k ≠ "id" → serialize_doc doc !! k = doc !! k.
Proof.
  intros H1 H2. unfold serialize_doc.
  destruct (doc !! "_id") as [v|]; [|done].
  destruct (truthy v); [|done].
  by rewrite lookup_insert_ne, lookup_delete_ne.
Qed.

(** C10. Serializing a stored document whose [_id] is a native identifier
    removes the [_id] field, adds a field [id] holding the string rendering
    of that identifier, and leaves every other key with the value it had;
    two different identifiers never render to the same string. *)
Theorem serialize_doc_exposes_id (doc : document) (oid : ObjectId) :
  doc !! "_id" = Some (VOid oid) →
  serialize_doc doc !! "_id" = None
  ∧ serialize_doc doc !! "id" = Some (VStr (ObjectId_str oid))
  ∧ (∀ k, k ≠ "_id" → k ≠ "id" → serialize_doc doc !! k = doc !! k)
  ∧ (∀ oid', ObjectId_str oid' = ObjectId_str oid → oid' = oid).
Proof.
  intros H. rewrite (serialize_doc_oid _ _ H). repeat split.
  - rewrite lookup_insert_ne by done. apply lookup_delete_eq.
  - apply lookup_insert_eq.
  - intros k H1 H2. by rewrite lookup_insert_ne, lookup_delete_ne.
  - intros Hs. by apply ObjectId_str_inj.
Qed.

(** *** Running queries *)

Lemma matches_app (q1 q2 : query) (doc : document) :
  matches (q1 ++ q2) doc = matches q1 doc && matches q2 doc.
Proof. unfold matches. apply forallb_app. Qed.

Lemma query_ok_app (q1 q2 : query) :
  query_ok (q1 ++ q2) = query_ok q1 && query_ok q2.
Proof. unfold query_ok. apply forallb_app. Qed.

Lemma to_list_find (coll : Collection) (q : query) (sk n : Z) :
  query_ok q = true →
  to_list (mkCursor coll q sk n)
  = Ok (apply_limit n (drop (Z.to_nat sk) (List.filter (matches q) coll))).
Proof. intros H. unfold to_list, run_query. simpl. by rewrite H. Qed.

Lemma apply_limit_pos (n : Z) (docs : list document) :
  (0 < n)%Z → apply_limit n docs = take (Z.to_nat n) docs.
Proof.
  intros H. unfold apply_limit.
  destruct (Z.eqb_spec n 0); [lia|]. by rewrite Z.abs_eq by lia.
Qed.

Lemma filter_ext_bool {A : Type} (f g : A → bool) (l : list A) :
  (∀ x, f x = g x) → List.filter f l = List.filter g l.
Proof. intros H. induction l as [|x l IH]; simpl; [done|]. by rewrite H, IH. Qed.

Lemma filter_all {A : Type} (l : list A) : List.filter (λ _, true) l = l.
Proof. induction l as [|x l IH]; simpl; [done|]. by rewrite IH. Qed.

(** C9. Each curated feed takes nothing but the store handle and decides
    on its truth value.  With the store absent the three feeds return an
    empty item list; with a store present the truth test of the handle
    raises NotImplementedError before any query is made, so no feed ever
    returns the up to 8 flagged items. *)
Theorem curated_feeds_truth_test (db : Database) :
  top_selling (Some db) = Raise NotImplementedError
  ∧ new_arrivals (Some db) = Raise NotImplementedError
  ∧ get_testimonials (Some db) = Raise NotImplementedError
  ∧ top_selling None = Ok []
  ∧ new_arrivals None = Ok []
  ∧ get_testimonials None = Ok [].
Proof. repeat split. Qed.

(** *** Category listing *)

Lemma elem_of_filter_bool {A : Type} (f : A → bool) (l : list A) (x : A) :
  x ∈ List.filter f l ↔ x ∈ l ∧ f x = true.
Proof. rewrite !list_elem_of_In. apply filter_In. Qed.

Lemma existsb_false_elem {A : Type} (f : A → bool) (l : list A) (x : A) :
  existsb f l = false → x ∈ l → f x = false.
Proof.
  intros H Hx. destruct (f x) eqn:E; [|done].
  assert (existsb f l = true); [|congruence].
  apply existsb_exists. exists x. by rewrite <- list_elem_of_In.
Qed.

Lemma dedup_values_elem (seen vs : list value) (x : value) :
  x ∈ dedup_values seen vs → existsb (value_eqb x) seen = false ∧ x ∈ vs.
Proof.
  revert seen. induction vs as [|v vs IH]; intros seen; simpl.
  - by intros ?%elem_of_nil.
  - destruct (existsb (value_eqb v) seen) eqn:E.
    + intros [? ?]%IH. split; [done | by apply list_elem_of_further].
    + intros [->|Hx]%elem_of_cons.
      * split; [done | apply list_elem_of_here].
      * apply IH in Hx as [Hs ?]. simpl in Hs.
        apply orb_false_iff in Hs as [_ Hs].
        split; [done | by apply list_elem_of_further].
Qed.

Lemma dedup_values_NoDup (seen vs : list value) : NoDup (dedup_values seen vs).
Proof.
  revert seen. induction vs as [|v vs IH]; intros seen; simpl.
  - constructor.
  - destruct (existsb (value_eqb v) seen); [apply IH|].
    constructor; [|apply IH].
    intros [Hs _]%dedup_values_elem. simpl in Hs.
    by rewrite value_eqb_refl in Hs.
Qed.

Lemma dedup_values_complete (seen vs : list value) (v : value) :
  v ∈ vs →
  ∃ v', value_eqb v v' = true ∧ (v' ∈ seen ∨ v' ∈ dedup_values seen vs).
Proof.
  revert seen. induction vs as [|a vs IH]; intros seen; simpl.
  - by intros ?%elem_of_nil.
  - intros [->|Hv]%elem_of_cons.
    + destruct (existsb (value_eqb a) seen) eqn:E.
      * apply existsb_exists in E as (v' & Hin & Heq).
        exists v'. split; [done|]. left. by apply list_elem_of_In.
      * exists a. split; [apply value_eqb_refl|]. right. apply list_elem_of_here.
    + destruct (existsb (value_eqb a) seen) eqn:E; [by apply IH|].
      destruct (IH (a :: seen) Hv) as (v' & Heq & [Hin|Hin]).
      * exists v'. split; [done|].
        apply elem_of_cons in Hin as [->|Hin]; [right; apply list_elem_of_here | by left].
      * exists v'. split; [done|]. right. by apply list_elem_of_further.
Qed.

Lemma elem_of_distinct (coll : Collection) (key : string) (v : value) :
  v ∈ distinct coll key → ∃ doc, doc ∈ coll ∧ v ∈ field_values key doc.
Proof.
  unfold distinct. intros [_ Hv]%dedup_values_elem.
  apply list_elem_of_In, in_concat in Hv as (vs & Hvs & Hv).
  apply list_elem_of_In, list_elem_of_fmap in Hvs as (doc & -> & Hdoc).
  exists doc. split; [done | by apply list_elem_of_In].
Qed.

Lemma distinct_string (coll : Collection) (key c : string) (doc : document) :
  doc ∈ coll → doc !! key = Some (VStr c) → VStr c ∈ distinct coll key.
Proof.
  intros Hdoc Hc. unfold distinct.
  destruct (dedup_values_complete [] (concat (field_values key <$> coll)) (VStr c))
    as (v' & Heq & [Hin|Hin]).
  - apply list_elem_of_In, in_concat. exists (field_values key doc). split.
    + apply list_elem_of_In, list_elem_of_fmap. by exists doc.
    + unfold field_values. rewrite Hc. by left.
  - by apply elem_of_nil in Hin.
  - destruct v'; simpl in Heq; try done.
    apply String.eqb_eq in Heq. by subst.
Qed.

Lemma not_featured_iff (v : value) :
  negb (existsb (λ f, value_eqb v (VStr f)) featured) = true
  ↔ ∀ f, f ∈ featured → v ≠ VStr f.
Proof.
  rewrite negb_true_iff. split.
  - intros H f Hf ->.
    apply (existsb_false_elem _ _ f) in H; [|done].
    cbv beta in H. by rewrite value_eqb_refl in H.
  - intros H. destruct (existsb _ featured) eqn:E; [|done].
    apply existsb_exists in E as (f & Hf & Heq).
    apply value_eqb_VStr_r in Heq. destruct (H f); [by apply list_elem_of_In | done].
Qed.

(** C4. On an available store the category listing is the five featured
    categories Chair, Sofa, Bed, Table, Decor in that order, present in the
    collection or not, followed by the other distinct category values of
    the product collection; the listing has no duplicates, holds every
    category some product has, holds nothing but featured categories and
    categories found in the collection, and a category outside the
    featured five sits at index 5 or later. *)
Theorem get_categories_featured_first (db : Database) :
  let cats := get_categories (Some db) in
  let products := collection db "product" in
  (∃ others,
      cats = [VStr "Chair"; VStr "Sofa"; VStr "Bed"; VStr "Table"; VStr "Decor"] ++ others
      ∧ ∀ v, v ∈ others ↔ v ∈ distinct products "category"
                           ∧ ∀ f, f ∈ featured → v ≠ VStr f)
  ∧ NoDup cats
  ∧ (∀ doc c, doc ∈ products → doc !! "category" = Some (VStr c) → VStr c ∈ cats)
  ∧ (∀ v, v ∈ cats →
       (∃ f, f ∈ featured ∧ v = VStr f)
       ∨ ∃ doc, doc ∈ products ∧ v ∈ field_values "category" doc)
  ∧ (∀ i c, cats !! i = Some (VStr c) → c ∉ featured → 5 ≤ i)%nat.
Proof.
  intros cats products. subst cats. unfold get_categories. fold products.
  set (others := List.filter _ _).
  assert (Hothers : ∀ v, v ∈ others ↔ v ∈ distinct products "category"
                                      ∧ ∀ f, f ∈ featured → v ≠ VStr f).
  { intros v. unfold others. rewrite elem_of_filter_bool.
    by rewrite not_featured_iff. }
  split; [by exists others|]. split; [|split; [|split]].
  - apply NoDup_app. split; [|split].
    + assert (Inj eq eq VStr) by (by intros ?? [=]).
      apply (NoDup_fmap_2 VStr). compute_done.
    + intros v [f [-> Hf]]%list_elem_of_fmap [_ Hne]%Hothers. by eapply Hne.
    + unfold others. apply NoDup_ListNoDup, List.NoDup_filter, NoDup_ListNoDup.
      apply dedup_values_NoDup.
  - intros doc c Hdoc Hc. apply elem_of_app.
    destruct (decide (c ∈ featured)) as [Hf|Hf].
    + left. apply list_elem_of_fmap. by exists c.
    + right. apply Hothers. split; [by eapply distinct_string|].
      intros f Hin [= ->]. done.
  - intros v [Hv|Hv]%elem_of_app.
    + left. apply list_elem_of_fmap in Hv as (f & -> & Hf). by exists f.
    + right. apply Hothers in Hv as [Hv _]. by apply elem_of_distinct.
  - intros i c Hi Hc.
    destruct (decide (i < 5)%nat) as [Hlt|]; [|lia].
    rewrite lookup_app_l in Hi by (simpl; lia).
    apply list_elem_of_lookup_2, list_elem_of_fmap in Hi as (f & [= ->] & Hf).
    done.
Qed.

(** *** Product detail *)

Lemma matches_id (oid : ObjectId) (doc : document) :
  matches [("_id", Eq (VOid oid))] doc = eq_match (doc !! "_id") (VOid oid).
Proof. unfold matches. simpl. apply andb_true_r. Qed.

Lemma matches_related (cv : value) (oid : ObjectId) (doc : document) :
  matches [("category", Eq cv); ("_id", Ops [OpNe (VOid oid)])] doc
  = related_to cv oid doc.
Proof. unfold matches, related_to. simpl. by rewrite !andb_true_r. Qed.

Lemma find_one_id (coll : Collection) (oid : ObjectId) :
  find_one coll [("_id", Eq (VOid oid))]
  = Ok (head (List.filter (λ d, eq_match (d !! "_id") (VOid oid)) coll)).
Proof.
  unfold find_one, run_query. simpl. do 2 f_equal.
  apply filter_ext_bool, matches_id.
Qed.

Lemma get_product_malformed (db : Database) (product_id : string) :
  ObjectId_of_str product_id = None →
  get_product (Some db) product_id = Raise (HTTPException 400 "Invalid id").
Proof. intros H. unfold get_product, ObjectId_call. by rewrite H. Qed.

Lemma get_product_absent (db : Database) (product_id : string) (oid : ObjectId) :
  ObjectId_of_str product_id = Some oid →
  (∀ doc, doc ∈ collection db "product" → eq_match (doc !! "_id") (VOid oid) = false) →
  get_product (Some db) product_id = Raise (HTTPException 404 "Product not found").
Proof.
  intros H Hno. unfold get_product, ObjectId_call. rewrite H.
  rewrite bind_Ok, find_one_id. cbn [try_except]. rewrite bind_Ok.
  destruct (List.filter _ _) as [|doc l] eqn:E; [done|]. exfalso.
  assert (doc ∈ List.filter (λ d, eq_match (d !! "_id") (VOid oid))
                            (collection db "product")) as Hd
    by (rewrite E; apply list_elem_of_here).
  apply elem_of_filter_bool in Hd as [Hd Hm]. by rewrite Hno in Hm.
Qed.

Lemma get_product_found (db : Database) (product_id : string) (oid : ObjectId)
    (doc : document) :
  ObjectId_of_str product_id = Some oid →
  head (List.filter (λ d, eq_match (d !! "_id") (VOid oid)) (collection db "product"))
  = Some doc →
  get_product (Some db) product_id
  = Ok (mkProductDetail (serialize_doc doc)
          (serialize_doc <$> take 4
             (List.filter
                (related_to (default VNone (serialize_doc doc !! "category")) oid)
                (collection db "product")))).
Proof.
  intros H Hd. unfold get_product, ObjectId_call. rewrite H.
  rewrite bind_Ok, find_one_id. cbn [try_except]. rewrite !bind_Ok, Hd.
  assert (doc ≠ ∅) as Hne.
  { intros ->. apply head_Some_elem_of, elem_of_filter_bool in Hd as [_ Hd].
    by rewrite lookup_empty in Hd. }
  rewrite bool_decide_eq_false_2 by done.
  unfold limit, find. cbn [cur_coll cur_query cur_skip cur_limit].
  rewrite bind_Ok, to_list_find by done. rewrite bind_Ok.
  rewrite apply_limit_pos by lia. do 3 f_equal.
  change (Z.to_nat 4) with 4%nat. change (Z.to_nat 0) with 0%nat.
  rewrite drop_0. f_equal. apply filter_ext_bool, matches_related.
Qed.

(** C5. On an available store, product detail lookup answers an
    identifier that [ObjectId] rejects with the client error 400, and an
    identifier that [ObjectId] accepts and no product matches with the
    not-found error 404; the two errors differ.  [ObjectId] accepts
    exactly the strings of length 24 made of pairs of hexadecimal digits
    with ASCII whitespace allowed before a pair: 24 hexadecimal digits
    are accepted, as a 12-byte identifier; another length, or a character
    that is neither a hexadecimal digit nor ASCII whitespace, is
    rejected. *)
Theorem get_product_errors (db : Database) (product_id : string) :
  (is_Some (ObjectId_of_str product_id)
   ↔ String.length product_id = 24%nat ∧ hex_pairs product_id)
  ∧ (ObjectId_of_str product_id = None →
     get_product (Some db) product_id = Raise (HTTPException 400 "Invalid id"))
  ∧ (String.length product_id ≠ 24%nat
     ∨ (∃ c, c ∈ list_ascii_of_string product_id
             ∧ hexval c = None ∧ is_ascii_space c = false) →
     get_product (Some db) product_id = Raise (HTTPException 400 "Invalid id"))
  ∧ (∀ oid, ObjectId_of_str product_id = Some oid →
       (∀ doc, doc ∈ collection db "product" →
               eq_match (doc !! "_id") (VOid oid) = false) →
       get_product (Some db) product_id
       = Raise (HTTPException 404 "Product not found"))
  ∧ (String.length product_id = 24%nat → hex_string product_id →
     ∃ oid, ObjectId_of_str product_id = Some oid
            ∧ length (binary oid) = 12%nat
            ∧ ObjectId_str oid = PyStr.lower product_id)
  ∧ HTTPException 400 "Invalid id" ≠ HTTPException 404 "Product not found".
Proof.
  split; [apply ObjectId_of_str_well_formed|].
  split; [apply get_product_malformed|]. split; [|split; [|split]].
  - intros Hbad. apply get_product_malformed.
    destruct (ObjectId_of_str product_id) as [o|] eqn:E; [|done]. exfalso.
    assert (is_Some (ObjectId_of_str product_id)) as [Hlen Hp]%ObjectId_of_str_well_formed
      by (by rewrite E).
    destruct Hbad as [Hne|(c & Hc & Hhex & Hsp)]; [done|].
    destruct (hex_pairs_chars _ c Hp Hc) as [[a Ha]|Hs]; congruence.
  - apply get_product_absent.
  - intros Hlen Hhex. destruct (ObjectId_of_str_hex _ Hlen Hhex) as (o & Ho & Hs & Hl).
    by exists o.
  - intros [=].
Qed.

Lemma stored_product_id_match (doc : document) (oid : ObjectId) :
  stored_product doc →
  eq_match (doc !! "_id") (VOid oid) = true ↔ doc !! "_id" = Some (VOid oid).
Proof.
  intros [[o Ho] _]. rewrite Ho. unfold eq_match, candidates, existsb.
  rewrite orb_false_r, value_eqb_VOid. split; congruence.
Qed.

Lemma stored_product_category_match (doc : document) (c : string) :
  stored_product doc →
  eq_match (doc !! "category") (VStr c) = true ↔ doc !! "category" = Some (VStr c).
Proof.
  intros [_ [c' Hc]]. rewrite Hc. unfold eq_match, candidates, existsb.
  rewrite orb_false_r, value_eqb_VStr_r. split; congruence.
Qed.

Lemma head_filter_Some {A : Type} (f : A → bool) (l : list A) (x : A) :
  x ∈ l → f x = true → ∃ y, head (List.filter f l) = Some y ∧ y ∈ l ∧ f y = true.
Proof.
  intros Hx Hf.
  assert (x ∈ List.filter f l) as Hin by (by apply elem_of_filter_bool).
  destruct (List.filter f l) as [|y l'] eqn:E; [by apply elem_of_nil in Hin|].
  exists y. split; [done|]. apply elem_of_filter_bool. rewrite E. apply list_elem_of_here.
Qed.

(** C6. When every stored product has a store-assigned identifier and a
    string category, looking up a well-formed identifier that some product
    carries succeeds with [{item, related}]: the item is that product under
    its string identifier, and related is the serialization of the first 4
    products, in natural order, matching the item's category under another
    identifier.  So related has at most 4 entries, each with the item's
    category, none with the item's identifier. *)
Theorem get_product_related (db : Database) (product_id : string) (oid : ObjectId) :
  Forall stored_product (collection db "product") →
  ObjectId_of_str product_id = Some oid →
  (∃ doc, doc ∈ collection db "product" ∧ doc !! "_id" = Some (VOid oid)) →
  ∃ item related,
    get_product (Some db) product_id = Ok (mkProductDetail item related)
    ∧ item !! "id" = Some (VStr (ObjectId_str oid))
    ∧ related = serialize_doc <$> take 4
        (List.filter (related_to (default VNone (item !! "category")) oid)
                     (collection db "product"))
    ∧ (length related ≤ 4)%nat
    ∧ ∀ r, r ∈ related →
        r !! "category" = item !! "category"
        ∧ r !! "id" ≠ item !! "id"
        ∧ r !! "_id" = None.
Proof.
  intros Hwf Hoid (doc & Hdoc & Hid).
  rewrite Forall_forall in Hwf.
  destruct (head_filter_Some (λ d, eq_match (d !! "_id") (VOid oid))
              (collection db "product") doc) as (doc0 & Hhead & Hin0 & Hm0);
    [done | by apply stored_product_id_match; [apply Hwf|] |].
  apply stored_product_id_match in Hm0; [|by apply Hwf].
  destruct (Hwf doc0 Hin0) as [_ [c0 Hc0]].
  eexists _, _. split; [by apply get_product_found|].
  assert (serialize_doc doc0 !! "category" = Some (VStr c0)) as Hcat
    by (by rewrite serialize_doc_other).
  assert (serialize_doc doc0 !! "id" = Some (VStr (ObjectId_str oid))) as Hitem
    by (by rewrite (serialize_doc_oid _ _ Hm0), lookup_insert_eq).
  split; [done|]. split; [done|]. split.
  - rewrite length_fmap, length_take. lia.
  - intros r (d & -> & Hd)%list_elem_of_fmap.
    apply elem_of_take in Hd as (i & Hd & _). apply list_elem_of_lookup_2 in Hd.
    apply elem_of_filter_bool in Hd as [Hd Hrel].
    rewrite Hcat in Hrel. simpl in Hrel. unfold related_to in Hrel.
    apply andb_true_iff in Hrel as [Hc Hne].
    pose proof (Hwf d Hd) as Hwd. destruct (Hwd) as [[o Ho] _].
    apply (stored_product_category_match _ _ Hwd) in Hc.
    rewrite Hcat, Hitem, (serialize_doc_oid _ _ Ho).
    rewrite lookup_insert_eq, !lookup_insert_ne, lookup_delete_eq, lookup_delete_ne by done.
    split; [done|]. split; [|done].
    intros [= Heq%ObjectId_str_inj]. subst o.
    apply negb_true_iff in Hne.
    apply (stored_product_id_match _ oid Hwd) in Ho. congruence.
Qed.

(** *** Order intake *)

(** C7. An order body that passes validation is accepted whatever the
    length of its item list, the empty list included.  [create_order]
    hands the store the dictionary of the body, which the store appends to
    the order collection under a generated identifier: the stored document
    holds the customer's name, email, phone and address, every item's
    product_id, title, price, quantity and image, in order, and the
    payment method, each as the request gave it, and besides [_id]
    nothing else.  The response carries the identifier as a string with
    the status [received]. *)
Theorem create_order_received (db : Database) (order : OrderIn) :
  OrderIn_valid order = true →
  let oid := generate_oid (collection db "order") in
  let stored := <["_id" := VOid oid]> (model_dump order) in
  let db' := <["order" := collection db "order" ++ [stored]]> db in
  create_order (Some db) order
  = Ok (mkOrderReceipt (ObjectId_str oid) "received", db')
  ∧ app (Some db) (PostOrders order)
    = (Ok (Receipt (mkOrderReceipt (ObjectId_str oid) "received")), Some db')
  ∧ collection db' "order" = collection db "order" ++ [stored]
  ∧ (∀ k, k ≠ "_id" → stored !! k = model_dump order !! k)
  ∧ stored !! "_id" = Some (VOid oid)
  ∧ stored !! "customer"
    = Some (VDict [("name", VStr (customer_name (order_customer order)));
                   ("email", VStr (customer_email (order_customer order)));
                   ("phone", match customer_phone (order_customer order) with
                             | Some ph => VStr ph
                             | None => VNone
                             end);
                   ("address", VStr (customer_address (order_customer order)))])
  ∧ stored !! "items"
    = Some (VList ((λ i, VDict [("product_id", VStr (item_product_id i));
                                ("title", VStr (item_title i));
                                ("price", VNum (item_price i));
                                ("quantity", VNum (inject_Z (item_quantity i)));
                                ("image", match item_image i with
                                          | Some img => VStr img
                                          | None => VNone
                                          end)])
                   <$> order_items order))
  ∧ stored !! "payment_method" = Some (VStr (order_payment_method order))
  ∧ (∀ k, is_Some (stored !! k) →
          k ∈ ["_id"; "customer"; "items"; "payment_method"])
  ∧ (∀ customer payment_method,
       OrderIn_valid (mkOrderIn customer [] payment_method) = true).
Proof.
  intros Hvalid oid stored db'.
  split; [reflexivity|]. split; [|split; [|split; [|split; [|split; [|split; [|split; [|split]]]]]]].
  - unfold app. by rewrite Hvalid.
  - unfold db', collection. by rewrite lookup_insert_eq.
  - intros k Hk. unfold stored. by rewrite lookup_insert_ne.
  - unfold stored. apply lookup_insert_eq.
  - unfold stored, model_dump.
    rewrite lookup_insert_ne by done. apply lookup_insert_eq.
  - unfold stored, model_dump.
    rewrite !lookup_insert_ne by done. apply lookup_insert_eq.
  - unfold stored, model_dump.
    rewrite !lookup_insert_ne by done. apply lookup_insert_eq.
  - intros k Hk. unfold stored, model_dump in Hk.
    rewrite !lookup_insert in Hk.
    repeat (case_decide; [subst k; compute_done|]).
    rewrite lookup_empty in Hk. by destruct Hk.
  - reflexivity.
Qed.

(** *** Store unavailable *)

(** C8. With the store handle absent, the category listing, the product
    listing and the three feeds return empty envelopes (the listing is
    [{items: [], total: 0, page, page_size}] with the requested page
    values), product detail raises the not-found error 404, and order
    creation raises the server error 500 on a valid body. *)
Theorem store_unavailable (r : request) :
  app None r
  = (match r with
     | GetCategories => Ok (Categories [])
     | GetProducts p =>
         Ok (Page (mkProductPage [] 0 (default 1%Z (page p))
                                 (default 12%Z (page_size p))))
     | GetTopSelling | GetNewArrivals | GetTestimonials => Ok (Items [])
     | GetProduct _ => Raise (HTTPException 404 "Product not found")
     | PostOrders body =>
         if OrderIn_valid body
         then Raise (HTTPException 500 "Database not available")
         else Raise RequestValidationError
     end, None).
Proof.
  destruct r; try reflexivity.
  unfold app. by destruct (OrderIn_valid body).
Qed.

(** *** Product listing *)

Lemma list_products_query_at_page (p : ListParams) (pg ps : option Z) :
  list_products_query (at_page p pg ps) = list_products_query p.
Proof. reflexivity. Qed.

Lemma list_products_run (db : Database) (p : ListParams) :
  let pg := default 1%Z (page p) in
  let ps := default 12%Z (page_size p) in
  let matching := List.filter (matches (list_products_query p))
                              (collection db "product") in
  query_ok (list_products_query p) = true →
  (0 ≤ (pg - 1) * ps)%Z →
  list_products (Some db) p
  = Ok (mkProductPage
          (serialize_doc <$> apply_limit ps (drop (Z.to_nat ((pg - 1) * ps)) matching))
          (length matching) pg ps).
Proof.
  intros pg ps matching Hok Hskip. unfold list_products.
  unfold count_documents, run_query. rewrite Hok, !bind_Ok.
  unfold skip. destruct (Z.ltb_spec ((default 1%Z (page p) - 1) * default 12%Z (page_size p)) 0);
    [subst pg ps; lia|].
  rewrite bind_Ok. unfold limit, find. cbn [cur_coll cur_query cur_skip cur_limit].
  by rewrite to_list_find.
Qed.

(** C1. For every store, every filter combination the store accepts (the
    search pattern compiles), every page >= 1 and every page_size >= 1,
    product listing returns the envelope whose items are the serialized
    matches from offset (page - 1) * page_size on, page_size of them at
    most and with no other bound, and whose total is the number of
    matching documents, which does not depend on the page parameters; an
    absent page is 1 and an absent page_size is 12. *)
Theorem list_products_page (db : Database) (p : ListParams) :
  let pg := default 1%Z (page p) in
  let ps := default 12%Z (page_size p) in
  let matching := List.filter (matches (list_products_query p))
                              (collection db "product") in
  query_ok (list_products_query p) = true →
  (1 ≤ pg)%Z → (1 ≤ ps)%Z →
  ∃ env,
    list_products (Some db) p = Ok env
    ∧ page_items env
      = serialize_doc <$> take (Z.to_nat ps) (drop (Z.to_nat ((pg - 1) * ps)) matching)
    ∧ (Z.of_nat (length (page_items env)) ≤ ps)%Z
    ∧ page_total env = length matching
    ∧ page_page env = pg
    ∧ page_page_size env = ps
    ∧ (∀ pg' ps', list_products_query (at_page p pg' ps') = list_products_query p)
    ∧ ((length matching ≤ Z.to_nat ps)%nat → pg = 1%Z →
       page_items env = serialize_doc <$> matching).
Proof.
  intros pg ps matching Hok Hpg Hps.
  eexists. split; [apply list_products_run; [done | subst pg ps; nia]|].
  fold pg ps matching. cbn [page_items page_total page_page page_page_size].
  rewrite apply_limit_pos by lia.
  split; [reflexivity|]. split; [|split; [reflexivity|]].
  - rewrite length_fmap, length_take. lia.
  - do 3 (split; [reflexivity|]).
    intros Hall ->. rewrite Z.mul_0_l. change (Z.to_nat 0) with 0%nat.
    rewrite drop_0, take_ge by done. done.
Qed.

(** *** The filters of the product listing *)

Lemma list_products_query_parts (p : ListParams) :
  list_products_query p
  = search_part p ++ category_part p ++ materials_part p
      ++ price_part p ++ rating_part p.
Proof.
  unfold list_products_query, search_part, category_part, materials_part,
    price_part, rating_part.
  destruct (search p) as [s|]; [destruct (PyStr.nonempty s)|];
    (destruct (category p) as [c|]; [destruct (PyStr.nonempty c)|]);
    (destruct (materials p) as [m|];
       [destruct (PyStr.nonempty m); [destruct (parse_materials m)|]|]);
    destruct (price_min p), (price_max p), (rating_min p); reflexivity.
Qed.

Lemma matches_parts (p : ListParams) (doc : document) :
  matches (list_products_query p) doc
  = matches (search_part p) doc && matches (category_part p) doc
    && matches (materials_part p) doc
    && matches (price_part p) doc && matches (rating_part p) doc.
Proof.
  rewrite list_products_query_parts, !matches_app.
  by rewrite !andb_assoc.
Qed.

Lemma materials_part_parsed (p : ListParams) (raw : string) :
  materials p = Some raw →
  materials_part p
  = match parse_materials raw with
    | [] => []
    | mats => [("materials", Ops [OpIn (VStr <$> mats)])]
    end.
Proof.
  intros H. unfold materials_part. rewrite H.
  by destruct raw.
Qed.

Lemma elem_of_parse_materials (raw t : string) :
  t ∈ parse_materials raw
  ↔ ∃ piece, piece ∈ PyStr.split "," raw ∧ t = PyStr.strip piece ∧ t ≠ "".
Proof.
  unfold parse_materials. rewrite list_elem_of_fmap. split.
  - intros (piece & -> & [Hin Hne]%elem_of_filter_bool).
    exists piece. by rewrite <- nonempty_iff.
  - intros (piece & Hin & -> & Hne). exists piece. split; [done|].
    apply elem_of_filter_bool. by rewrite nonempty_iff.
Qed.

(** [$in] on an array of strings: some element is among the values. *)
Lemma in_match_strings (ms mats : list string) :
  existsb (eq_match (Some (VList (VStr <$> ms)))) (VStr <$> mats) = true
  ↔ ∃ m, m ∈ ms ∧ m ∈ mats.
Proof.
  rewrite existsb_exists. split.
  - intros (x & (m & -> & Hm)%list_elem_of_In%list_elem_of_fmap & Hx).
    exists m. split; [|done].
    unfold eq_match, candidates in Hx. cbn [existsb] in Hx.
    apply existsb_exists in Hx as (c & (m' & -> & Hm')%list_elem_of_In%list_elem_of_fmap & Hc).
    apply value_eqb_VStr_r in Hc as [= ->]. done.
  - intros (m & Hms & Hmats). exists (VStr m). split.
    + apply list_elem_of_In, list_elem_of_fmap. by exists m.
    + unfold eq_match, candidates. cbn [existsb]. apply orb_true_iff. right.
      apply existsb_exists. exists (VStr m). split; [|apply value_eqb_refl].
      apply list_elem_of_In, list_elem_of_fmap. by exists m.
Qed.

(** C2. For an ASCII materials parameter: the string is split on
    commas, each piece trimmed of the whitespace at its two ends (the
    trimmed piece starts and ends with a character that is not
    whitespace) and the empty results dropped.  A product whose materials
    are the strings [ms] passes the materials filter exactly when one of
    them is among the parsed tokens (any, not all), the other filters
    being unchanged; when no token is left the query is the one built
    without the materials parameter. *)
Theorem materials_filter_any (p : ListParams) (raw : string) (doc : document)
    (ms : list string) :
  materials p = Some raw →
  ascii_only raw →
  doc !! "materials" = Some (VList (VStr <$> ms)) →
  let mats := parse_materials raw in
  (∀ t, t ∈ mats
        ↔ ∃ piece, piece ∈ PyStr.split "," raw ∧ t = PyStr.strip piece ∧ t ≠ "")
  ∧ PyStr.join "," (PyStr.split "," raw) = raw
  ∧ (∀ piece, piece ∈ PyStr.split "," raw → PyStr.contains_char "," piece = false)
  ∧ (∀ piece,
       (∃ l r, piece = l +:+ PyStr.strip piece +:+ r ∧ all_space l ∧ all_space r)
       ∧ trimmed (PyStr.strip piece))
  ∧ (∀ c, PyStr.isspace c = true ↔ N_of_ascii c ∈ space_codes)
  ∧ (mats ≠ [] →
     (matches (list_products_query p) doc = true
      ↔ (∃ m, m ∈ ms ∧ m ∈ mats)
        ∧ matches (list_products_query (without_materials p)) doc = true))
  ∧ (mats = [] →
     list_products_query p = list_products_query (without_materials p)).
Proof.
  intros Hraw _ Hdoc mats.
  split; [apply elem_of_parse_materials|].
  split; [apply join_split|].
  split; [intros piece; apply split_no_sep|].
  split; [apply strip_spec|].
  split; [apply isspace_codes|].
  pose proof (materials_part_parsed p raw Hraw) as Hpart. fold mats in Hpart.
  split.
  - intros Hne. rewrite !matches_parts.
    change (matches (materials_part (without_materials p)) doc) with true.
    change (search_part (without_materials p)) with (search_part p).
    change (category_part (without_materials p)) with (category_part p).
    change (price_part (without_materials p)) with (price_part p).
    change (rating_part (without_materials p)) with (rating_part p).
    rewrite Hpart. destruct mats as [|m0 mats'] eqn:Em; [done|]. rewrite <- Em.
    assert (matches [("materials", Ops [OpIn (VStr <$> mats)])] doc = true
            ↔ ∃ m, m ∈ ms ∧ m ∈ mats) as Hin.
    { unfold matches. cbn [forallb fst snd cond_match op_match].
      rewrite Hdoc, !andb_true_r. apply in_match_strings. }
    rewrite andb_true_r, !andb_true_iff, Hin. tauto.
  - intros Hnil. rewrite !list_products_query_parts, Hpart, Hnil. reflexivity.
Qed.

Lemma matches_agree (q : query) (d1 d2 : document) :
  (∀ k, k ∈ q.*1 → d1 !! k = d2 !! k) → matches q d1 = matches q d2.
Proof.
  unfold matches. induction q as [|[k c] q IH]; intros H; simpl; [done|].
  rewrite (H k) by (simpl; apply list_elem_of_here).
  rewrite IH; [done|]. intros k' Hk'. apply H. simpl. by apply list_elem_of_further.
Qed.

Ltac key_in H :=
  simpl in H;
  first [ by apply elem_of_nil in H
        | apply list_elem_of_singleton in H; subst; compute_done ].

Lemma list_products_query_keys (p : ListParams) (k : string) :
  k ∈ (list_products_query p).*1 →
  k ∈ ["title"; "category"; "materials"; "price"; "rating"].
Proof.
  rewrite list_products_query_parts, !fmap_app, !elem_of_app.
  unfold search_part, category_part, materials_part, price_part, rating_part.
  intros [H|[H|[H|[H|H]]]].
  - destruct (search p) as [s|]; [destruct (PyStr.nonempty s)|]; key_in H.
  - destruct (category p) as [s|]; [destruct (PyStr.nonempty s)|]; key_in H.
  - destruct (materials p) as [s|];
      [destruct (PyStr.nonempty s); [destruct (parse_materials s)|]|]; key_in H.
  - destruct (price_min p), (price_max p); key_in H.
  - destruct (rating_min p); key_in H.
Qed.

Lemma description_not_queried (p : ListParams) :
  "description" ∉ (list_products_query p).*1.
Proof. intros H%list_products_query_keys. revert H. compute_done. Qed.

Lemma list_products_query_search (p : ListParams) (s : string) :
  search p = Some s → s ≠ "" →
  list_products_query p
  = ("title", Ops [OpRegex s "i"]) :: list_products_query (without_search p).
Proof.
  intros Hs Hne%nonempty_iff. rewrite !list_products_query_parts.
  unfold search_part at 1. rewrite Hs, Hne. reflexivity.
Qed.

Lemma str_match_string (test : string → bool) (t : string) :
  str_match test (Some (VStr t)) = test t.
Proof. unfold str_match, candidates. simpl. apply orb_false_r. Qed.

(** C3. Every supplied (non-empty) search string, metacharacters and
    all, goes into the query as a regular expression on the title with
    the option [i]: a titled product passes exactly when the store's
    engine finds the pattern in its title and the other filters hold, and
    the listing fails when the engine rejects the pattern.  With PCRE for
    the engine, an ASCII search string free of metacharacters is found in
    an ASCII title exactly when the title contains it as a
    case-insensitive substring.  No search, whatever the string, reads the
    description field. *)
Theorem search_filter_title (p : ListParams) (s title : string) (doc : document) :
  search p = Some s → s ≠ "" →
  doc !! "title" = Some (VStr title) →
  list_products_query p
  = ("title", Ops [OpRegex s "i"]) :: list_products_query (without_search p)
  ∧ (∀ m, re_compile s "i" = Some m →
       (matches (list_products_query p) doc = true
        ↔ m title = true
          ∧ matches (list_products_query (without_search p)) doc = true))
  ∧ (re_compile s "i" = None →
     ∀ db, list_products (Some db) p = Raise OperationFailure)
  ∧ (Pcre.literal s = true → ascii_only s → ascii_only title →
     (matches (R := with_pcre R) (list_products_query p) doc = true
      ↔ PyStr.icontains s title
        ∧ matches (R := with_pcre R) (list_products_query (without_search p)) doc
          = true))
  ∧ (∀ p' d v, matches (list_products_query p') (<["description" := v]> d)
               = matches (list_products_query p') d)
  ∧ (∀ p' d, matches (list_products_query p') (delete "description" d)
             = matches (list_products_query p') d).
Proof.
  intros Hs Hne Htitle.
  pose proof (list_products_query_search p s Hs Hne) as Hq.
  split; [exact Hq|]. split; [|split; [|split; [|split]]].
  - intros m Hm. rewrite Hq. unfold matches at 1.
    cbn [forallb fst snd cond_match op_match].
    rewrite Hm, Htitle, str_match_string, andb_true_r, andb_true_iff. done.
  - intros Hnone db. unfold list_products, count_documents, run_query.
    rewrite Hq. unfold query_ok at 1. cbn [forallb snd op_ok]. by rewrite Hnone.
  - intros Hlit _ _. rewrite Hq. unfold matches at 1.
    cbn [forallb fst snd cond_match op_match].
    change (@re_compile (with_pcre R) s "i") with (Pcre.compile s "i").
    destruct (compile_literal s Hlit) as (m & -> & Hm).
    rewrite Htitle, str_match_string, andb_true_r, andb_true_iff, Hm. done.
  - intros p' d v. apply matches_agree. intros k Hk.
    apply lookup_insert_ne. intros <-. by apply description_not_queried in Hk.
  - intros p' d. apply matches_agree. intros k Hk.
    apply lookup_delete_ne. intros <-. by apply description_not_queried in Hk.
Qed.

End Properties.

(** ** The handlers on the sample store *)

Section Examples.
Import Sample.
#[local] Existing Instance Sample.runtime.

(** Products in categories Decor, Chair and Lamp: the five featured
    categories come first, Lamp after them. *)
Example categories_decor_chair_lamp :
  get_categories (Some decor_chair_lamp)
  = [VStr "Chair"; VStr "Sofa"; VStr "Bed"; VStr "Table"; VStr "Decor"; VStr "Lamp"].
Proof. vm_compute. reflexivity. Qed.

Example parse_materials_example :
  parse_materials " Oak , ,Leather," = ["Oak"; "Leather"].
Proof. vm_compute. reflexivity. Qed.

Lemma serialize_doc_exposes_id_witness :
  chair !! "_id" = Some (VOid oid1)
  ∧ serialize_doc chair !! "_id" = None
  ∧ serialize_doc chair !! "id" = Some (VStr (ObjectId_str oid1)).
Proof.
  split; [vm_compute; reflexivity|].
  pose proof (serialize_doc_exposes_id chair oid1) as H.
  destruct H as (H1 & H2 & _); [vm_compute; reflexivity|].
  split; assumption.
Defined.

Lemma get_categories_featured_first_witness :
  chair ∈ collection store "product"
  ∧ chair !! "category" = Some (VStr "Chair")
  ∧ VStr "Chair" ∈ get_categories (Some store).
Proof.
  assert (chair ∈ collection store "product") as Hin by apply list_elem_of_here.
  assert (chair !! "category" = Some (VStr "Chair")) as Hc by (vm_compute; reflexivity).
  split; [exact Hin|]. split; [exact Hc|].
  destruct (get_categories_featured_first store) as (_ & _ & H & _).
  exact (H chair "Chair" Hin Hc).
Defined.

Lemma get_product_errors_witness :
  String.length "not-an-id" ≠ 24%nat
  ∧ get_product (Some store) "not-an-id" = Raise (HTTPException 400 "Invalid id")
  ∧ ObjectId_of_str "000000000000000000000003" = Some oid3
  ∧ (∀ doc, doc ∈ collection store "product" →
            eq_match (doc !! "_id") (VOid oid3) = false)
  ∧ get_product (Some store) "000000000000000000000003"
    = Raise (HTTPException 404 "Product not found").
Proof.
  assert (String.length "not-an-id" ≠ 24%nat) as Hbad by (vm_compute; discriminate).
  assert (ObjectId_of_str "000000000000000000000003" = Some oid3) as Hoid
    by (vm_compute; reflexivity).
  assert (∀ doc, doc ∈ collection store "product" →
                 eq_match (doc !! "_id") (VOid oid3) = false) as Hno.
  { intros doc Hdoc. change (collection store "product") with [chair; sofa] in Hdoc.
    apply elem_of_cons in Hdoc as [->|Hdoc]; [vm_compute; reflexivity|].
    apply list_elem_of_singleton in Hdoc as ->. vm_compute; reflexivity. }
  split; [exact Hbad|].
  destruct (get_product_errors store "not-an-id") as (_ & _ & H400 & _).
  split; [exact (H400 (or_introl Hbad))|].
  split; [exact Hoid|]. split; [exact Hno|].
  destruct (get_product_errors store "000000000000000000000003") as (_ & _ & _ & H404 & _).
  exact (H404 oid3 Hoid Hno).
Defined.

(** Whitespace between digit pairs is skipped: a 24-character string of
    eight pairs and eight spaces is accepted, as an 8-byte identifier, and
    the lookup goes on to the store and finds nothing. *)
Example get_product_spaced_id :
  (binary <$> ObjectId_of_str "00 00 00 00 00 00 00 00 ") = Some (replicate 8 Byte.x00)
  ∧ get_product (Some store) "00 00 00 00 00 00 00 00 "
    = Raise (HTTPException 404 "Product not found").
Proof. split; vm_compute; reflexivity. Qed.

Lemma stored_product_sample (oid : ObjectId) (title cat : string)
    (mats : list string) (top new : bool) :
  stored_product (product oid title cat mats top new).
Proof. split; eexists; reflexivity. Qed.

Lemma get_product_related_witness :
  Forall stored_product (collection store "product")
  ∧ ObjectId_of_str "000000000000000000000001" = Some oid1
  ∧ (∃ doc, doc ∈ collection store "product" ∧ doc !! "_id" = Some (VOid oid1))
  ∧ ∃ item related,
      get_product (Some store) "000000000000000000000001"
      = Ok (mkProductDetail item related)
      ∧ item !! "id" = Some (VStr (ObjectId_str oid1))
      ∧ (length related ≤ 4)%nat.
Proof.
  assert (Forall stored_product (collection store "product")) as Hwf
    by (repeat constructor; apply stored_product_sample).
  assert (ObjectId_of_str "000000000000000000000001" = Some oid1) as Hoid
    by (vm_compute; reflexivity).
  assert (∃ doc, doc ∈ collection store "product" ∧ doc !! "_id" = Some (VOid oid1)) as Hex
    by (exists chair; split; [apply list_elem_of_here | vm_compute; reflexivity]).
  split; [exact Hwf|]. split; [exact Hoid|]. split; [exact Hex|].
  destruct (get_product_related store _ oid1 Hwf Hoid Hex)
    as (item & related & H1 & H2 & _ & H4 & _).
  exists item, related. split; [exact H1|]. split; [exact H2 | exact H4].
Defined.

Lemma create_order_received_witness :
  OrderIn_valid empty_order = true
  ∧ order_items empty_order = []
  ∧ create_order (Some store) empty_order
    = Ok (mkOrderReceipt (ObjectId_str (generate_oid (collection store "order"))) "received",
          <["order" := collection store "order"
                       ++ [<["_id" := VOid (generate_oid (collection store "order"))]>
                             (model_dump empty_order)]]> store).
Proof.
  split; [reflexivity|]. split; [reflexivity|].
  exact (proj1 (create_order_received store empty_order eq_refl)).
Defined.

Lemma list_products_page_witness :
  query_ok (list_products_query no_filter) = true
  ∧ (1 ≤ default 1 (page no_filter))%Z
  ∧ (1 ≤ default 12 (page_size no_filter))%Z
  ∧ ∃ env, list_products (Some store) no_filter = Ok env
           ∧ page_total env = 2%nat
           ∧ page_page env = 1%Z
           ∧ page_page_size env = 12%Z.
Proof.
  assert (query_ok (list_products_query no_filter) = true) as Hok by reflexivity.
  assert (1 ≤ default 1 (page no_filter))%Z as Hpg by (simpl; lia).
  assert (1 ≤ default 12 (page_size no_filter))%Z as Hps by (simpl; lia).
  split; [exact Hok|]. split; [exact Hpg|]. split; [exact Hps|].
  destruct (list_products_page store no_filter Hok Hpg Hps)
    as (env & H1 & _ & _ & H4 & H5 & H6 & _).
  exists env. split; [exact H1|]. split; [exact H4|]. split; [exact H5 | exact H6].
Defined.

(** A product made of oak alone passes a request for oak or leather,
    written with blanks around the names and two empty pieces. *)
Lemma materials_filter_any_witness :
  materials oak_or_leather_spaced = Some " Oak , ,Leather,"
  ∧ ascii_only " Oak , ,Leather,"
  ∧ oak_shelf !! "materials" = Some (VList (VStr <$> ["Oak"]))
  ∧ PyStr.split "," " Oak , ,Leather," = [" Oak "; " "; "Leather"; ""]
  ∧ parse_materials " Oak , ,Leather," = ["Oak"; "Leather"]
  ∧ matches (list_products_query oak_or_leather_spaced) oak_shelf = true.
Proof.
  assert (ascii_only " Oak , ,Leather,") as Hascii
    by (unfold ascii_only; simpl; repeat (constructor; [reflexivity|]); constructor).
  assert (oak_shelf !! "materials" = Some (VList (VStr <$> ["Oak"]))) as Hdoc
    by (vm_compute; reflexivity).
  split; [reflexivity|]. split; [exact Hascii|]. split; [exact Hdoc|].
  split; [vm_compute; reflexivity|]. split; [vm_compute; reflexivity|].
  destruct (materials_filter_any oak_or_leather_spaced " Oak , ,Leather," oak_shelf ["Oak"]
              eq_refl Hascii Hdoc) as (_ & _ & _ & _ & _ & Hany & _).
  apply Hany; [vm_compute; discriminate|].
  split; [|reflexivity].
  exists "Oak". split; [apply list_elem_of_here|].
  change (parse_materials " Oak , ,Leather,") with ["Oak"; "Leather"].
  apply list_elem_of_here.
Defined.

Lemma search_filter_title_witness :
  search (search_for "sofa") = Some "sofa"
  ∧ "sofa" ≠ ""
  ∧ sofa !! "title" = Some (VStr "Cloud XL Sofa")
  ∧ Pcre.literal "sofa" = true
  ∧ ascii_only "sofa"
  ∧ ascii_only "Cloud XL Sofa"
  ∧ list_products_query (search_for "sofa") = [("title", Ops [OpRegex "sofa" "i"])]
  ∧ (matches (R := with_pcre runtime) (list_products_query (search_for "sofa")) sofa = true
     ↔ PyStr.icontains "sofa" "Cloud XL Sofa"
       ∧ matches (R := with_pcre runtime)
           (list_products_query (without_search (search_for "sofa"))) sofa = true).
Proof.
  assert ("sofa" ≠ "") as Hne by discriminate.
  assert (sofa !! "title" = Some (VStr "Cloud XL Sofa")) as Ht by (vm_compute; reflexivity).
  assert (ascii_only "sofa") as Ha1
    by (unfold ascii_only; simpl; repeat (constructor; [reflexivity|]); constructor).
  assert (ascii_only "Cloud XL Sofa") as Ha2
    by (unfold ascii_only; simpl; repeat (constructor; [reflexivity|]); constructor).
  split; [reflexivity|]. split; [exact Hne|]. split; [exact Ht|].
  split; [reflexivity|]. split; [exact Ha1|]. split; [exact Ha2|].
  destruct (search_filter_title (search_for "sofa") "sofa" "Cloud XL Sofa" sofa
              eq_refl Hne Ht) as (Hq & _ & _ & Hsub & _).
  split; [exact Hq|]. exact (Hsub eq_refl Ha1 Ha2).
Defined.

(** With page_size 0 the store applies no limit: both products come back
    in a page whose size is 0. *)
Lemma page_size_zero_unlimited :
  ∃ env,
    list_products (Some store) (at_page no_filter (Some 1%Z) (Some 0%Z)) = Ok env
    ∧ page_page_size env = 0%Z
    ∧ length (page_items env) = 2%nat
    ∧ ¬ (Z.of_nat (length (page_items env)) ≤ page_page_size env)%Z.
Proof.
  exists (mkProductPage (serialize_doc <$> [chair; sofa]) 2 1 0).
  split; [vm_compute; reflexivity|]. split; [reflexivity|]. split; [reflexivity|].
  simpl. lia.
Qed.

(** An unbalanced parenthesis is no pattern: the store refuses the query
    and the listing fails. *)
Example list_products_bad_pattern :
  list_products (Some store) (search_for "(") = Raise OperationFailure.
Proof. vm_compute. reflexivity. Qed.

(** The search string [.] is a pattern matching any character: it selects
    a product whose title holds no dot. *)
Lemma search_dot_not_substring :
  sofa !! "title" = Some (VStr "Cloud XL Sofa")
  ∧ matches (list_products_query (search_for ".")) sofa = true
  ∧ page_total <$> list_products (Some store) (search_for ".") = Ok 2%nat
  ∧ ¬ PyStr.icontains "." "Cloud XL Sofa".
Proof.
  split; [vm_compute; reflexivity|]. split; [vm_compute; reflexivity|].
  split; [vm_compute; reflexivity|].
  intros H%search_from_literal. vm_compute in H. discriminate H.
Qed.

(** With the store absent, product detail, a read endpoint, raises an
    error instead of returning an envelope. *)
Lemma absent_store_detail_raises :
  ¬ (∀ r, is_read r = true →
          ∃ resp, (app None r).1 = Ok resp ∧ degraded resp).
Proof.
  intros H.
  destruct (H (GetProduct "000000000000000000000001") eq_refl) as (resp & Hr & _).
  discriminate Hr.
Qed.

End Examples.

(** ** Further properties of the handlers *)

Section Coverage.
Context {R : Runtime}.

(** *** Serialization *)

(** X1. Serializing twice is serializing once; a serialized document keeps
    an [_id] field only when that field was falsy (0, an empty string,
    null), and then it is the document unchanged, with no [id] added. *)
Theorem serialize_doc_idempotent (doc : document) :
  serialize_doc (serialize_doc doc) = serialize_doc doc
  ∧ (∀ v, serialize_doc doc !! "_id" = Some v →
          truthy v = false ∧ serialize_doc doc = doc).
Proof.
  assert (∀ v, serialize_doc doc !! "_id" = Some v →
               truthy v = false ∧ serialize_doc doc = doc) as Hkeep.
  { intros v. unfold serialize_doc.
    destruct (doc !! "_id") as [w|] eqn:E; [|by rewrite E].
    destruct (truthy w) eqn:Ew.
    - rewrite lookup_insert_ne by done. by rewrite lookup_delete_eq.
    - rewrite E. intros [= ->]. done. }
  split; [|exact Hkeep].
  destruct (serialize_doc doc !! "_id") as [v|] eqn:E.
  - destruct (Hkeep v eq_refl) as [_ Hid]. by rewrite !Hid.
  - unfold serialize_doc at 1. by rewrite E.
Qed.

(** *** The filters of the listing, one by one *)

Lemma num_match_number (test : Q → bool) (x : Q) :
  num_match test (Some (VNum x)) = test x.
Proof. unfold num_match, candidates. simpl. apply orb_false_r. Qed.

Lemma matches_price_part (p : ListParams) (doc : document) (x : Q) :
  doc !! "price" = Some (VNum x) →
  matches (price_part p) doc = true
  ↔ (∀ lo, price_min p = Some lo → (lo <= x)%Q)
    ∧ (∀ hi, price_max p = Some hi → (x <= hi)%Q).
Proof.
  intros Hx. unfold price_part, matches.
  destruct (price_min p) as [lo | ]; destruct (price_max p) as [hi | ];
    cbn [forallb fst snd cond_match]; rewrite ?Hx, ?forallb_app;
    cbn [forallb op_match];
    rewrite ?num_match_number, ?andb_true_r, ?andb_true_iff, ?Qle_bool_iff.
  all: cbn [andb];
    (split; [intros H; split; intros ? [= <-]; tauto
            | intros [H1 H2]; repeat split; eauto]).
Qed.

(** X2. The price range is inclusive at both ends and either bound works
    alone: a product priced [x] passes the price filter exactly when
    price_min <= x for a supplied price_min and x <= price_max for a
    supplied price_max, the other filters being unchanged.  A bound of 0
    is a bound like any other. *)
Theorem price_filter_inclusive (p : ListParams) (doc : document) (x : Q) :
  doc !! "price" = Some (VNum x) →
  matches (list_products_query p) doc = true
  ↔ (∀ lo, price_min p = Some lo → (lo <= x)%Q)
    ∧ (∀ hi, price_max p = Some hi → (x <= hi)%Q)
    ∧ matches (list_products_query (without_price p)) doc = true.
Proof.
  intros Hx. rewrite !matches_parts.
  change (matches (price_part (without_price p)) doc) with true.
  change (search_part (without_price p)) with (search_part p).
  change (category_part (without_price p)) with (category_part p).
  change (materials_part (without_price p)) with (materials_part p).
  change (rating_part (without_price p)) with (rating_part p).
  rewrite andb_true_r, !andb_true_iff, (matches_price_part p doc x Hx). tauto.
Qed.

(** X3. The rating bound is inclusive: a product rated [x] passes a
    supplied rating_min exactly when rating_min <= x, the other filters
    being unchanged. *)
Theorem rating_filter_inclusive (p : ListParams) (doc : document) (x lo : Q) :
  doc !! "rating" = Some (VNum x) →
  rating_min p = Some lo →
  matches (list_products_query p) doc = true
  ↔ (lo <= x)%Q ∧ matches (list_products_query (without_rating p)) doc = true.
Proof.
  intros Hx Hlo. rewrite !matches_parts.
  change (matches (rating_part (without_rating p)) doc) with true.
  change (search_part (without_rating p)) with (search_part p).
  change (category_part (without_rating p)) with (category_part p).
  change (materials_part (without_rating p)) with (materials_part p).
  change (price_part (without_rating p)) with (price_part p).
  assert (matches (rating_part p) doc = true ↔ (lo <= x)%Q) as Hr.
  { unfold rating_part, matches. rewrite Hlo.
    cbn [forallb fst snd cond_match op_match].
    by rewrite Hx, num_match_number, !andb_true_r, Qle_bool_iff. }
  rewrite andb_true_r, !andb_true_iff, Hr. tauto.
Qed.

(** X4. The category filter is an exact, case-sensitive match: a product
    of category [c] passes a supplied non-empty category exactly when
    the two strings are equal, the other filters being unchanged. *)
Theorem category_filter_exact (p : ListParams) (doc : document) (c c' : string) :
  doc !! "category" = Some (VStr c) →
  category p = Some c' → c' ≠ "" →
  matches (list_products_query p) doc = true
  ↔ c = c' ∧ matches (list_products_query (without_category p)) doc = true.
Proof.
  intros Hc Hc' Hne. rewrite !matches_parts.
  change (matches (category_part (without_category p)) doc) with true.
  change (search_part (without_category p)) with (search_part p).
  change (materials_part (without_category p)) with (materials_part p).
  change (price_part (without_category p)) with (price_part p).
  change (rating_part (without_category p)) with (rating_part p).
  assert (matches (category_part p) doc = true ↔ c = c') as Hm.
  { unfold category_part, matches. rewrite Hc'.
    apply nonempty_iff in Hne. rewrite Hne.
    cbn [forallb fst snd cond_match]. rewrite Hc.
    unfold eq_match, candidates. cbn [existsb].
    rewrite orb_false_r, andb_true_r, value_eqb_VStr_r. split; congruence. }
  rewrite !andb_true_iff, Hm. simpl. tauto.
Qed.

Lemma list_products_same_query (db : option Database) (p p' : ListParams) :
  list_products_query p = list_products_query p' →
  page p = page p' → page_size p = page_size p' →
  list_products db p = list_products db p'.
Proof. intros Hq Hpg Hps. unfold list_products. by rewrite Hq, Hpg, Hps. Qed.

(** X5. An empty string given for search, category or materials is the
    same as not giving the parameter: the listing answers as it does
    without it. *)
Theorem empty_parameters_ignored (db : option Database) (p : ListParams) :
  (search p = Some "" → list_products db p = list_products db (without_search p))
  ∧ (category p = Some "" →
     list_products db p = list_products db (without_category p))
  ∧ (materials p = Some "" →
     list_products db p = list_products db (without_materials p)).
Proof.
  split; [|split]; intros H; apply list_products_same_query; try reflexivity;
    unfold list_products_query; simpl; by rewrite H.
Qed.

(** *** Outcomes of the listing *)

Lemma query_ok_search (p : ListParams) :
  query_ok (list_products_query p) = true
  ↔ ∀ s, search p = Some s → s ≠ "" → is_Some (re_compile s "i").
Proof.
  rewrite list_products_query_parts, !query_ok_app.
  assert (query_ok (category_part p) = true) as ->
    by (unfold category_part; destruct (category p) as [c|]; [by destruct (PyStr.nonempty c)|done]).
  assert (query_ok (materials_part p) = true) as ->.
  { unfold materials_part. destruct (materials p) as [m|]; [|done].
    destruct (PyStr.nonempty m); [|done]. by destruct (parse_materials m). }
  assert (query_ok (price_part p) = true) as ->
    by (unfold price_part; by destruct (price_min p), (price_max p)).
  assert (query_ok (rating_part p) = true) as ->
    by (unfold rating_part; by destruct (rating_min p)).
  rewrite !andb_true_r. unfold search_part.
  destruct (search p) as [s|]; [|by split].
  destruct (PyStr.nonempty s) eqn:E.
  - unfold query_ok. cbn [forallb snd op_ok]. rewrite !andb_true_r.
    apply nonempty_iff in E. split.
    + intros H s' [= <-] _. destruct (re_compile s "i"); [by eexists | done].
    + intros H. by destruct (H s eq_refl E) as [m ->].
  - split; [|done]. intros _ s' [= <-] Hne. by apply nonempty_iff in Hne; congruence.
Qed.

(** X6. On an available store the listing has three outcomes.  A search
    string the store cannot compile fails the query (checked first, by the
    count); otherwise a negative offset (page - 1) * page_size, as with
    page 0, makes the cursor raise ValueError; otherwise the listing
    returns an envelope.  Only a supplied, non-empty search string can
    fail the query. *)
Theorem list_products_outcome (db : Database) (p : ListParams) :
  let pg := default 1%Z (page p) in
  let ps := default 12%Z (page_size p) in
  let q := list_products_query p in
  (query_ok q = true
   ↔ ∀ s, search p = Some s → s ≠ "" → is_Some (re_compile s "i"))
  ∧ (query_ok q = false → list_products (Some db) p = Raise OperationFailure)
  ∧ (query_ok q = true → ((pg - 1) * ps < 0)%Z →
     list_products (Some db) p = Raise ValueError)
  ∧ (query_ok q = true → (0 ≤ (pg - 1) * ps)%Z →
     ∃ env, list_products (Some db) p = Ok env).
Proof.
  intros pg ps q. split; [apply query_ok_search|]. split; [|split].
  - intros Hq. unfold list_products, count_documents, run_query.
    fold q. by rewrite Hq.
  - intros Hq Hneg. unfold list_products, count_documents, run_query.
    fold q. rewrite Hq, !bind_Ok. unfold skip. fold pg ps.
    destruct (Z.ltb_spec ((pg - 1) * ps) 0); [done | lia].
  - intros Hq Hpos. eexists. by apply list_products_run.
Qed.

(** X7. A page past the last match is not an error: it has no items and
    the same total as every other page. *)
Theorem list_products_past_end (db : Database) (p : ListParams) :
  let pg := default 1%Z (page p) in
  let ps := default 12%Z (page_size p) in
  query_ok (list_products_query p) = true →
  (1 ≤ pg)%Z → (1 ≤ ps)%Z →
  (Z.of_nat (length (matching db p)) ≤ (pg - 1) * ps)%Z →
  list_products (Some db) p
  = Ok (mkProductPage [] (length (matching db p)) pg ps).
Proof.
  intros pg ps Hq Hpg Hps Hend.
  rewrite list_products_run by (done || (fold pg ps; nia)).
  fold pg ps (matching db p). rewrite apply_limit_pos by lia.
  rewrite drop_ge by lia. by rewrite take_nil.
Qed.

(** X9. A page_size of 0 turns pagination off: whatever the page, the
    listing returns every matching document. *)
Theorem page_size_zero_returns_all (db : Database) (p : ListParams) :
  query_ok (list_products_query p) = true →
  page_size p = Some 0%Z →
  list_products (Some db) p
  = Ok (mkProductPage (serialize_doc <$> matching db p) (length (matching db p))
                      (default 1%Z (page p)) 0).
Proof.
  intros Hq Hps. rewrite list_products_run by (done || (rewrite Hps; simpl; lia)).
  rewrite Hps. simpl default. rewrite Z.mul_0_r. by unfold apply_limit.
Qed.

Lemma take_add_drop {A : Type} (a b : nat) (l : list A) :
  take (a + b) l = take a l ++ take b (drop a l).
Proof.
  revert l. induction a as [|a IH]; intros l; [done|].
  destruct l as [|x l]; simpl; [by rewrite take_nil | by rewrite IH].
Qed.

Lemma page_of_slice (db : Database) (p : ListParams) (ps : Z) (k : nat) :
  query_ok (list_products_query p) = true → (1 ≤ ps)%Z →
  page_of db p ps (S k)
  = serialize_doc <$> take (Z.to_nat ps) (drop (k * Z.to_nat ps) (matching db p)).
Proof.
  intros Hq Hps. unfold page_of.
  rewrite list_products_run
    by (done || (simpl; apply Z.mul_nonneg_nonneg; lia)).
  simpl. rewrite apply_limit_pos by lia.
  replace (Z.of_nat (S k) - 1)%Z with (Z.of_nat k) by lia.
  by rewrite Z2Nat.inj_mul, Nat2Z.id by lia.
Qed.

(** X8. Walking the pages in order loses and repeats nothing: for a
    page_size >= 1, the items of pages 1 to n, one after the other, are
    the first n * page_size matches in the store's order, and all the
    matches once n * page_size reaches their number. *)
Theorem pages_cover_matches (db : Database) (p : ListParams) (ps : Z) (n : nat) :
  query_ok (list_products_query p) = true → (1 ≤ ps)%Z →
  concat (page_of db p ps <$> seq 1 n)
  = serialize_doc <$> take (n * Z.to_nat ps) (matching db p)
  ∧ ((length (matching db p) ≤ n * Z.to_nat ps)%nat →
     concat (page_of db p ps <$> seq 1 n) = serialize_doc <$> matching db p).
Proof.
  intros Hq Hps.
  assert (concat (page_of db p ps <$> seq 1 n)
          = serialize_doc <$> take (n * Z.to_nat ps) (matching db p)) as Hall.
  { induction n as [|n IH]; [done|].
    rewrite seq_S, fmap_app, concat_app, IH. simpl.
    rewrite app_nil_r, page_of_slice by done.
    rewrite <- fmap_app. f_equal.
    by rewrite <- take_add_drop, Nat.add_comm. }
  split; [done|]. intros Hlen. by rewrite Hall, take_ge.
Qed.

(** *** Identifiers as strings *)

Lemma fromhex_lower (n : nat) (s : string) :
  (String.length s ≤ n)%nat → fromhex (PyStr.lower s) = fromhex s.
Proof.
  revert s. induction n as [|n IH]; intros s Hn.
  - destruct s; [done | simpl in Hn; lia].
  - destruct s as [|h rest]; [done|]. simpl in Hn.
    cbn [PyStr.lower fromhex]. rewrite is_ascii_space_lower.
    destruct (is_ascii_space h); [apply IH; lia|].
    destruct rest as [|l s]; [done|]. simpl in Hn.
    cbn [PyStr.lower]. rewrite !hexval_lower, IH by lia. done.
Qed.

Lemma ObjectId_of_str_lower (s : string) :
  ObjectId_of_str (PyStr.lower s) = ObjectId_of_str s.
Proof.
  unfold ObjectId_of_str. by rewrite length_lower, (fromhex_lower (String.length s)).
Qed.

Lemma length_hexlify (bs : list byte) :
  String.length (hexlify bs) = (2 * length bs)%nat.
Proof. induction bs as [|b bs IH]; simpl; [done | rewrite IH; lia]. Qed.

Lemma ObjectId_of_str_str (o : ObjectId) :
  length (binary o) = 12%nat → ObjectId_of_str (ObjectId_str o) = Some o.
Proof.
  intros H. unfold ObjectId_of_str, ObjectId_str.
  rewrite length_hexlify, H, fromhex_hexlify. by destruct o.
Qed.

Lemma validate_string (s : string) :
  PyObjectId_validate (VStr s)
  = match ObjectId_of_str s with Some o => Ok o | None => Raise ValueError end.
Proof.
  unfold PyObjectId_validate, ObjectId_is_valid, ObjectId_call.
  destruct (ObjectId_of_str s) as [o|] eqn:E; [|by rewrite andb_false_r].
  assert (PyStr.nonempty s = true) as ->; [|done].
  destruct s; [discriminate E | done].
Qed.

(** X13. [PyObjectId.validate] returns an ObjectId unchanged; on a string
    it returns what [ObjectId] makes of it and raises ValueError when
    [ObjectId] rejects it.  [ObjectId] accepts exactly the strings of
    length 24 made of hexadecimal digit pairs with ASCII whitespace
    allowed before a pair, so 24 hexadecimal digits give the 12-byte
    identifier that renders as the string in lower case, and a string of
    another length, or holding a character that is neither digit nor
    whitespace, is refused.  Null, booleans, numbers, lists and
    dictionaries raise ValueError. *)
Theorem PyObjectId_validate_accepts (v : value) :
  (∀ o, v = VOid o → PyObjectId_validate v = Ok o)
  ∧ (∀ s o, v = VStr s → ObjectId_of_str s = Some o → PyObjectId_validate v = Ok o)
  ∧ (∀ s, v = VStr s → ObjectId_of_str s = None →
       PyObjectId_validate v = Raise ValueError)
  ∧ (∀ s, is_Some (ObjectId_of_str s) ↔ String.length s = 24%nat ∧ hex_pairs s)
  ∧ (∀ s, v = VStr s → String.length s = 24%nat → hex_string s →
       ∃ o, PyObjectId_validate v = Ok o
            ∧ ObjectId_str o = PyStr.lower s ∧ length (binary o) = 12%nat)
  ∧ (∀ s, v = VStr s →
       String.length s ≠ 24%nat
       ∨ (∃ c, c ∈ list_ascii_of_string s
               ∧ hexval c = None ∧ is_ascii_space c = false) →
       PyObjectId_validate v = Raise ValueError)
  ∧ match v with
    | VNone | VBool _ | VNum _ | VList _ | VDict _ =>
        PyObjectId_validate v = Raise ValueError
    | VStr _ | VOid _ => True
    end.
Proof.
  split; [by intros o ->|].
  split; [intros s o -> Ho; by rewrite validate_string, Ho|].
  split; [intros s -> Ho; by rewrite validate_string, Ho|].
  split; [apply ObjectId_of_str_well_formed|]. split; [|split].
  - intros s -> Hlen Hhex.
    destruct (ObjectId_of_str_hex s Hlen Hhex) as (o & Ho & Hs & Hl).
    exists o. by rewrite validate_string, Ho.
  - intros s -> Hbad. rewrite validate_string.
    destruct (ObjectId_of_str s) as [o|] eqn:E; [|done]. exfalso.
    assert (is_Some (ObjectId_of_str s)) as [Hlen Hp]%ObjectId_of_str_well_formed
      by (by rewrite E).
    destruct Hbad as [Hne|(c & Hc & Hhex & Hsp)]; [done|].
    destruct (hex_pairs_chars _ c Hp Hc) as [[a Ha]|Hs]; congruence.
  - by destruct v.
Qed.

(** X14. Validation undoes rendering: the string form of a 12-byte
    identifier validates back to that identifier; and validation does not
    depend on the case of the hexadecimal digits. *)
Theorem PyObjectId_validate_round_trip (o : ObjectId) (s : string) :
  (length (binary o) = 12%nat → PyObjectId_validate (VStr (ObjectId_str o)) = Ok o)
  ∧ PyObjectId_validate (VStr (PyStr.lower s)) = PyObjectId_validate (VStr s).
Proof.
  split.
  - intros H. unfold PyObjectId_validate, ObjectId_is_valid, ObjectId_call.
    rewrite (ObjectId_of_str_str o H).
    assert (PyStr.nonempty (ObjectId_str o) = true) as ->; [|done].
    unfold ObjectId_str. destruct (binary o); [done | done].
  - unfold PyObjectId_validate, ObjectId_is_valid, ObjectId_call.
    rewrite ObjectId_of_str_lower. by destruct s.
Qed.

(** *** Product detail *)

Lemma get_product_cases (db : Database) (product_id : string) :
  (ObjectId_of_str product_id = None
   ∧ get_product (Some db) product_id = Raise (HTTPException 400 "Invalid id"))
  ∨ (∃ oid, ObjectId_of_str product_id = Some oid
       ∧ (∀ doc, doc ∈ collection db "product" →
                 eq_match (doc !! "_id") (VOid oid) = false)
       ∧ get_product (Some db) product_id
         = Raise (HTTPException 404 "Product not found"))
  ∨ (∃ oid doc d, ObjectId_of_str product_id = Some oid
       ∧ doc ∈ collection db "product"
       ∧ eq_match (doc !! "_id") (VOid oid) = true
       ∧ get_product (Some db) product_id = Ok d).
Proof.
  destruct (ObjectId_of_str product_id) as [oid|] eqn:E;
    [|left; split; [done | by apply get_product_malformed]].
  right.
  destruct (head (List.filter (λ d, eq_match (d !! "_id") (VOid oid))
                              (collection db "product"))) as [doc|] eqn:Hh.
  - right. exists oid, doc. eexists. split; [done|].
    pose proof (head_Some_elem_of _ _ Hh) as [Hin Hm]%elem_of_filter_bool.
    split; [done|]. split; [done|]. by apply get_product_found.
  - left. exists oid. split; [done|].
    assert (∀ doc, doc ∈ collection db "product" →
                   eq_match (doc !! "_id") (VOid oid) = false) as Hno.
    { intros doc Hdoc. destruct (eq_match (doc !! "_id") (VOid oid)) eqn:Em; [|done].
      destruct (head_filter_Some (λ d, eq_match (d !! "_id") (VOid oid)) _ doc Hdoc Em)
        as (y & Hy & _). congruence. }
    split; [done|]. by apply (get_product_absent _ _ oid).
Qed.

(** X10. On an available store product detail has exactly three outcomes
    and each tells its cause: 400 exactly when the identifier is not
    well-formed, 404 exactly when it is well-formed and no product carries
    it, a result exactly when some product carries it.  No other error
    leaves the handler. *)
Theorem get_product_outcomes (db : Database) (product_id : string) :
  (get_product (Some db) product_id = Raise (HTTPException 400 "Invalid id")
   ↔ ObjectId_of_str product_id = None)
  ∧ (get_product (Some db) product_id = Raise (HTTPException 404 "Product not found")
     ↔ ∃ oid, ObjectId_of_str product_id = Some oid
              ∧ ∀ doc, doc ∈ collection db "product" →
                       eq_match (doc !! "_id") (VOid oid) = false)
  ∧ ((∃ d, get_product (Some db) product_id = Ok d)
     ↔ ∃ oid doc, ObjectId_of_str product_id = Some oid
                  ∧ doc ∈ collection db "product"
                  ∧ eq_match (doc !! "_id") (VOid oid) = true)
  ∧ (get_product (Some db) product_id = Raise (HTTPException 400 "Invalid id")
     ∨ get_product (Some db) product_id = Raise (HTTPException 404 "Product not found")
     ∨ ∃ d, get_product (Some db) product_id = Ok d).
Proof.
  destruct (get_product_cases db product_id)
    as [[Hp Hg]|[(oid & Hp & Hno & Hg)|(oid & doc & d & Hp & Hin & Hm & Hg)]];
    rewrite Hg.
  - split; [done|]. split; [|split; [|by left]].
    + split; [done | intros (oid & ? & _); congruence].
    + split; [by intros [? ?] | intros (oid & ? & ? & _); congruence].
  - split; [split; [done | congruence]|]. split; [|split; [|right; by left]].
    + split; [by exists oid | done].
    + split; [by intros [? ?]|].
      intros (oid' & doc & Hp' & Hin & Hm). rewrite Hp in Hp'. injection Hp' as <-.
      by rewrite Hno in Hm.
  - split; [split; [done | congruence]|]. split; [|split; [|right; right; by exists d]].
    + split; [done|]. intros (oid' & Hp' & Hno). rewrite Hp in Hp'. injection Hp' as <-.
      by rewrite Hno in Hm.
    + split; [by exists oid, doc | by exists d].
Qed.

(** X11. Product identifiers are read without regard to case: an
    identifier and its lower-case form get the same answer. *)
Theorem get_product_case_insensitive (db : option Database) (product_id : string) :
  get_product db (PyStr.lower product_id) = get_product db product_id.
Proof.
  unfold get_product, ObjectId_call. by rewrite ObjectId_of_str_lower.
Qed.

(** X12. The [id] a serialized product carries opens that product: when
    stored products have store-assigned 12-byte identifiers, no two the
    same, looking up the [id] field of a serialized product returns that
    same serialized product as the item. *)
Theorem serialized_id_finds_product (db : Database) (doc : document)
    (oid : ObjectId) (sid : string) :
  Forall stored_product (collection db "product") →
  doc ∈ collection db "product" →
  doc !! "_id" = Some (VOid oid) →
  length (binary oid) = 12%nat →
  (∀ d, d ∈ collection db "product" → d !! "_id" = Some (VOid oid) → d = doc) →
  serialize_doc doc !! "id" = Some (VStr sid) →
  ∃ related,
    get_product (Some db) sid = Ok (mkProductDetail (serialize_doc doc) related).
Proof.
  intros Hwf Hin Hid Hlen Huniq Hsid. rewrite Forall_forall in Hwf.
  rewrite (serialize_doc_oid _ _ Hid), lookup_insert_eq in Hsid.
  injection Hsid as <-.
  destruct (head_filter_Some (λ d, eq_match (d !! "_id") (VOid oid))
              (collection db "product") doc) as (doc0 & Hhead & Hin0 & Hm0);
    [done | by apply stored_product_id_match; [apply Hwf|] |].
  apply stored_product_id_match in Hm0; [|by apply Hwf].
  rewrite (Huniq doc0 Hin0 Hm0) in Hhead.
  eexists. apply get_product_found; [by apply ObjectId_of_str_str | done].
Qed.

(** *** Order validation *)

(** X15. The one constraint order intake checks is the quantity of each
    item: a body is valid exactly when every item has quantity >= 1, and a
    body with an item of quantity below 1 is refused before [create_order]
    runs, leaving the store as it was. *)
Theorem order_quantity_enforced (db : option Database) (body : OrderIn) :
  (OrderIn_valid body = true
   ↔ ∀ i, i ∈ order_items body → (1 ≤ item_quantity i)%Z)
  ∧ ((∃ i, i ∈ order_items body ∧ (item_quantity i < 1)%Z) →
     app db (PostOrders body) = (Raise RequestValidationError, db)).
Proof.
  assert (OrderIn_valid body = true
          ↔ ∀ i, i ∈ order_items body → (1 ≤ item_quantity i)%Z) as Hv.
  { unfold OrderIn_valid, OrderItem_valid. rewrite forallb_forall. split.
    - intros H i Hi. apply Z.leb_le, H. by apply list_elem_of_In.
    - intros H i Hi. apply Z.leb_le, H. by apply list_elem_of_In. }
  split; [exact Hv|]. intros (i & Hi & Hq). unfold app.
  destruct (OrderIn_valid body) eqn:E; [|done].
  pose proof (proj1 Hv eq_refl i Hi). lia.
Qed.

(** *** Startup seeding *)

Lemma count_documents_all (coll : Collection) :
  count_documents coll [] = Ok (length coll).
Proof.
  unfold count_documents, run_query. simpl. do 2 f_equal.
  rewrite (filter_ext_bool _ (λ _, true)) by done. apply filter_all.
Qed.

Lemma collection_insert (db : Database) (name name' : string) (coll : Collection) :
  collection (<[name := coll]> db) name'
  = if decide (name = name') then coll else collection db name'.
Proof. unfold collection. rewrite lookup_insert. by case_decide. Qed.

Lemma create_documents_other (db : Database) (name name' : string)
    (docs : list document) :
  name ≠ name' →
  collection (create_documents db name docs) name' = collection db name'.
Proof.
  intros Hne. unfold create_documents. revert db.
  induction docs as [|d docs IH]; intros db; [done|]. simpl.
  rewrite IH. unfold create_document. simpl.
  rewrite collection_insert. by case_decide.
Qed.

Lemma create_documents_appends (db : Database) (name : string)
    (docs : list document) :
  ∃ added, collection (create_documents db name docs) name
           = collection db name ++ added
           ∧ length added = length docs.
Proof.
  unfold create_documents. revert db.
  induction docs as [|d docs IH]; intros db.
  - exists []. by rewrite app_nil_r.
  - cbn [foldl]. destruct (IH (create_document db name d).1) as (added & -> & Hlen).
    unfold create_document. cbn [fst]. rewrite collection_insert.
    case_decide; [|done]. eexists (_ :: added).
    rewrite <- app_assoc. split; [done | simpl; by rewrite Hlen].
Qed.

Lemma seed_data_run (db : Database) :
  seed_data (Some db)
  = Ok (Some
      (let db1 := if Nat.eqb (length (collection db "product")) 0
                  then create_documents db "product" sample_products else db in
       if Nat.eqb (length (collection db1 "testimonial")) 0
       then create_documents db1 "testimonial" testimonials else db1)).
Proof.
  unfold seed_data. rewrite count_documents_all, bind_Ok.
  by rewrite count_documents_all, bind_Ok.
Qed.

Lemma length_zero_false {A : Type} (l : list A) :
  l ≠ [] → Nat.eqb (length l) 0 = false.
Proof. by destruct l. Qed.

Lemma seed_step (b : bool) (db : Database) (name : string) (docs : list document) :
  let db' := if b then create_documents db name docs else db in
  (∀ name', name ≠ name' → collection db' name' = collection db name')
  ∧ ∃ added, collection db' name = collection db name ++ added
             ∧ (b = true → length added = length docs)
             ∧ (b = false → added = []).
Proof.
  destruct b; simpl.
  - split; [intros; by apply create_documents_other|].
    destruct (create_documents_appends db name docs) as (a & -> & Hlen).
    by exists a.
  - split; [done|]. exists []. by rewrite app_nil_r.
Qed.

(** X16. The startup hook never fails and never touches what is there: an
    absent store stays absent; on an available store every collection
    keeps its documents, in order, as a prefix of what it holds afterwards;
    a product or testimonial collection that already holds a document is
    left exactly as it is, and no other collection changes. *)
Theorem seed_data_keeps_data (db : Database) :
  seed_data None = Ok None
  ∧ ∃ db', seed_data (Some db) = Ok (Some db')
      ∧ (∀ name, ∃ added, collection db' name = collection db name ++ added)
      ∧ (collection db "product" ≠ [] →
         collection db' "product" = collection db "product")
      ∧ (collection db "testimonial" ≠ [] →
         collection db' "testimonial" = collection db "testimonial")
      ∧ (∀ name, name ≠ "product" → name ≠ "testimonial" →
                 collection db' name = collection db name).
Proof.
  split; [done|]. eexists. split; [apply seed_data_run|]. cbv zeta.
  pose proof (seed_step (Nat.eqb (length (collection db "product")) 0)
                db "product" sample_products) as Hs1. cbv zeta in Hs1.
  set (db1 := if Nat.eqb (length (collection db "product")) 0
              then create_documents db "product" sample_products else db) in *.
  pose proof (seed_step (Nat.eqb (length (collection db1 "testimonial")) 0)
                db1 "testimonial" testimonials) as Hs2. cbv zeta in Hs2.
  set (db2 := if Nat.eqb (length (collection db1 "testimonial")) 0
              then create_documents db1 "testimonial" testimonials else db1) in *.
  destruct Hs1 as (H1 & a1 & H1p & _ & H1n).
  destruct Hs2 as (H2 & a2 & H2t & _ & H2n).
  split; [|split; [|split]].
  - intros name. destruct (decide (name = "testimonial")) as [->|Hn].
    + rewrite H2t, H1 by done. by exists a2.
    + rewrite H2 by done. destruct (decide (name = "product")) as [->|Hn'].
      * by exists a1.
      * rewrite H1 by done. exists []. by rewrite app_nil_r.
  - intros Hne. rewrite H2, H1p by done.
    rewrite H1n; [by rewrite app_nil_r | by apply length_zero_false].
  - intros Hne. rewrite H2t.
    rewrite H2n; [by rewrite app_nil_r, H1 |].
    rewrite H1 by done. by apply length_zero_false.
  - intros name Hp Ht. by rewrite H2, H1.
Qed.

(** X17. Seeding is idempotent: after the hook has run once, the product
    and testimonial collections are not empty and running it again
    changes nothing, so a restart never duplicates the sample data. *)
Theorem seed_data_idempotent (db : Database) :
  ∃ db', seed_data (Some db) = Ok (Some db')
    ∧ collection db' "product" ≠ []
    ∧ collection db' "testimonial" ≠ []
    ∧ seed_data (Some db') = Ok (Some db').
Proof.
  eexists. split; [apply seed_data_run|]. cbv zeta.
  pose proof (seed_step (Nat.eqb (length (collection db "product")) 0)
                db "product" sample_products) as Hs1. cbv zeta in Hs1.
  set (db1 := if Nat.eqb (length (collection db "product")) 0
              then create_documents db "product" sample_products else db) in *.
  pose proof (seed_step (Nat.eqb (length (collection db1 "testimonial")) 0)
                db1 "testimonial" testimonials) as Hs2. cbv zeta in Hs2.
  set (db2 := if Nat.eqb (length (collection db1 "testimonial")) 0
              then create_documents db1 "testimonial" testimonials else db1) in *.
  destruct Hs1 as (H1 & a1 & H1p & H1y & _).
  destruct Hs2 as (H2 & a2 & H2t & H2y & _).
  assert (collection db2 "product" ≠ []) as Hp.
  { rewrite H2, H1p by done.
    destruct (collection db "product") as [|d l]; [|done].
    specialize (H1y eq_refl). by destruct a1. }
  assert (collection db2 "testimonial" ≠ []) as Ht.
  { rewrite H2t.
    destruct (collection db1 "testimonial") as [|d l]; [|done].
    specialize (H2y eq_refl). by destruct a2. }
  split; [done|]. split; [done|].
  rewrite seed_data_run. cbv zeta.
  rewrite (length_zero_false _ Hp). by rewrite (length_zero_false _ Ht).
Qed.

(** *** What a listing returns *)

Lemma list_products_Ok_inv (db : Database) (p : ListParams) (env : ProductPage) :
  list_products (Some db) p = Ok env →
  env = mkProductPage
          (serialize_doc <$> apply_limit (default 12%Z (page_size p))
             (drop (Z.to_nat ((default 1%Z (page p) - 1) * default 12%Z (page_size p)))
                   (matching db p)))
          (length (matching db p)) (default 1%Z (page p)) (default 12%Z (page_size p)).
Proof.
  intros H.
  destruct (query_ok (list_products_query p)) eqn:Hq.
  - destruct (Z.ltb_spec ((default 1%Z (page p) - 1) * default 12%Z (page_size p)) 0)
      as [Hneg|Hpos].
    + exfalso. revert H. unfold list_products, count_documents, run_query.
      rewrite Hq, !bind_Ok. unfold skip.
      destruct (Z.ltb_spec ((default 1%Z (page p) - 1) * default 12%Z (page_size p)) 0);
        [done | lia].
    + rewrite list_products_run in H by done. by injection H as <-.
  - exfalso. revert H. unfold list_products, count_documents, run_query.
    by rewrite Hq.
Qed.

Lemma apply_limit_subseteq (n : Z) (docs : list document) :
  apply_limit n docs ⊆ docs.
Proof. unfold apply_limit. destruct (n =? 0)%Z; [done | apply subseteq_take]. Qed.

(** X18. Whatever the page parameters, a listing that returns holds
    nothing but serialized stored products that pass its filters, and its
    total counts all of them; a product with a store-assigned identifier
    appears with that identifier as the string [id] and without [_id]. *)
Theorem list_products_sound (db : Database) (p : ListParams) (env : ProductPage) :
  list_products (Some db) p = Ok env →
  page_total env = length (matching db p)
  ∧ ∀ item, item ∈ page_items env →
      ∃ doc, doc ∈ collection db "product"
             ∧ matches (list_products_query p) doc = true
             ∧ item = serialize_doc doc
             ∧ ∀ oid, doc !! "_id" = Some (VOid oid) →
                      item !! "_id" = None
                      ∧ item !! "id" = Some (VStr (ObjectId_str oid)).
Proof.
  intros ->%list_products_Ok_inv. cbn [page_total page_items].
  split; [done|]. intros item (doc & -> & Hdoc)%list_elem_of_fmap.
  apply apply_limit_subseteq, subseteq_drop in Hdoc.
  apply elem_of_filter_bool in Hdoc as [Hin Hm].
  exists doc. split; [done|]. split; [done|]. split; [done|].
  intros oid Hid. rewrite (serialize_doc_oid _ _ Hid).
  rewrite lookup_insert_ne by done. by rewrite lookup_delete_eq, lookup_insert_eq.
Qed.

End Coverage.

(** ** The further properties on sample data *)

Section CoverageExamples.
Import Sample Demo.
#[local] Existing Instance Sample.runtime.

Lemma serialize_doc_idempotent_witness :
  serialize_doc zero_id !! "_id" = Some (VNum 0)
  ∧ truthy (VNum 0) = false
  ∧ serialize_doc zero_id = zero_id.
Proof.
  assert (serialize_doc zero_id !! "_id" = Some (VNum 0)) as H by (vm_compute; reflexivity).
  split; [exact H|].
  exact (proj2 (serialize_doc_idempotent zero_id) (VNum 0) H).
Defined.

Lemma price_filter_inclusive_witness :
  aero !! "price" = Some (VNum 499)
  ∧ matches (list_products_query (priced 400 499)) aero = true.
Proof.
  assert (aero !! "price" = Some (VNum 499)) as H by (vm_compute; reflexivity).
  split; [exact H|].
  apply (price_filter_inclusive (priced 400 499) aero 499 H).
  split; [|split; [|reflexivity]]; intros q [= <-]; unfold Qle; simpl; lia.
Defined.

Lemma rating_filter_inclusive_witness :
  aero !! "rating" = Some (VNum (46 # 10))
  ∧ rating_min (rated (46 # 10)) = Some (46 # 10)
  ∧ matches (list_products_query (rated (46 # 10))) aero = true.
Proof.
  assert (aero !! "rating" = Some (VNum (46 # 10))) as H by (vm_compute; reflexivity).
  split; [exact H|]. split; [reflexivity|].
  apply (rating_filter_inclusive (rated (46 # 10)) aero (46 # 10) (46 # 10) H eq_refl).
  split; [unfold Qle; simpl; lia | reflexivity].
Defined.

Lemma category_filter_exact_witness :
  aero !! "category" = Some (VStr "Chair")
  ∧ category (in_category "Chair") = Some "Chair"
  ∧ "Chair" ≠ ""
  ∧ matches (list_products_query (in_category "Chair")) aero = true.
Proof.
  assert (aero !! "category" = Some (VStr "Chair")) as H by (vm_compute; reflexivity).
  assert ("Chair" ≠ "") as Hne by discriminate.
  split; [exact H|]. split; [reflexivity|]. split; [exact Hne|].
  apply (category_filter_exact (in_category "Chair") aero "Chair" "Chair" H eq_refl Hne).
  split; reflexivity.
Defined.

Lemma empty_parameters_ignored_witness :
  search (search_for "") = Some ""
  ∧ list_products (Some store) (search_for "")
    = list_products (Some store) (without_search (search_for "")).
Proof.
  split; [reflexivity|].
  exact (proj1 (empty_parameters_ignored (Some store) (search_for "")) eq_refl).
Defined.

Lemma list_products_outcome_witness :
  query_ok (list_products_query no_filter) = true
  ∧ ((0 - 1) * 12 < 0)%Z
  ∧ list_products (Some store) (at_page no_filter (Some 0%Z) None) = Raise ValueError.
Proof.
  assert ((0 - 1) * 12 < 0)%Z as Hneg by lia.
  split; [reflexivity|]. split; [exact Hneg|].
  destruct (list_products_outcome store (at_page no_filter (Some 0%Z) None))
    as (_ & _ & H & _).
  exact (H eq_refl Hneg).
Defined.

Lemma list_products_past_end_witness :
  query_ok (list_products_query no_filter) = true
  ∧ (1 ≤ 2)%Z ∧ (1 ≤ 12)%Z
  ∧ (Z.of_nat (length (matching store no_filter)) ≤ (2 - 1) * 12)%Z
  ∧ list_products (Some store) (at_page no_filter (Some 2%Z) None)
    = Ok (mkProductPage [] (length (matching store no_filter)) 2 12).
Proof.
  assert (1 ≤ 2)%Z as H1 by lia. assert (1 ≤ 12)%Z as H2 by lia.
  assert (Z.of_nat (length (matching store no_filter)) ≤ (2 - 1) * 12)%Z as H3
    by (vm_compute; discriminate).
  split; [reflexivity|]. split; [exact H1|]. split; [exact H2|]. split; [exact H3|].
  exact (list_products_past_end store (at_page no_filter (Some 2%Z) None) eq_refl H1 H2 H3).
Defined.

Lemma pages_cover_matches_witness :
  query_ok (list_products_query no_filter) = true
  ∧ (1 ≤ 1)%Z
  ∧ (length (matching store no_filter) ≤ 2 * Z.to_nat 1)%nat
  ∧ concat (page_of store no_filter 1 <$> seq 1 2)
    = serialize_doc <$> matching store no_filter.
Proof.
  assert (1 ≤ 1)%Z as H1 by lia.
  assert (length (matching store no_filter) ≤ 2 * Z.to_nat 1)%nat as H2
    by (vm_compute; lia).
  split; [reflexivity|]. split; [exact H1|]. split; [exact H2|].
  exact (proj2 (pages_cover_matches store no_filter 1 2 eq_refl H1) H2).
Defined.

Lemma page_size_zero_returns_all_witness :
  query_ok (list_products_query no_filter) = true
  ∧ page_size (at_page no_filter (Some 3%Z) (Some 0%Z)) = Some 0%Z
  ∧ list_products (Some store) (at_page no_filter (Some 3%Z) (Some 0%Z))
    = Ok (mkProductPage (serialize_doc <$> matching store no_filter)
                        (length (matching store no_filter)) 3 0).
Proof.
  split; [reflexivity|]. split; [reflexivity|].
  exact (page_size_zero_returns_all store (at_page no_filter (Some 3%Z) (Some 0%Z))
           eq_refl eq_refl).
Defined.

Lemma serialized_id_finds_product_witness :
  Forall stored_product (collection store "product")
  ∧ chair ∈ collection store "product"
  ∧ chair !! "_id" = Some (VOid oid1)
  ∧ length (binary oid1) = 12%nat
  ∧ (∀ d, d ∈ collection store "product" → d !! "_id" = Some (VOid oid1) → d = chair)
  ∧ serialize_doc chair !! "id" = Some (VStr "000000000000000000000001")
  ∧ ∃ related,
      get_product (Some store) "000000000000000000000001"
      = Ok (mkProductDetail (serialize_doc chair) related).
Proof.
  assert (Forall stored_product (collection store "product")) as Hwf
    by (repeat constructor; apply stored_product_sample).
  assert (chair ∈ collection store "product") as Hin by apply list_elem_of_here.
  assert (chair !! "_id" = Some (VOid oid1)) as Hid by (vm_compute; reflexivity).
  assert (length (binary oid1) = 12%nat) as Hlen by reflexivity.
  assert (∀ d, d ∈ collection store "product" → d !! "_id" = Some (VOid oid1) → d = chair)
    as Huniq.
  { intros d Hd Hdid. change (collection store "product") with [chair; sofa] in Hd.
    apply elem_of_cons in Hd as [->|Hd]; [reflexivity|].
    apply list_elem_of_singleton in Hd as ->. vm_compute in Hdid. discriminate Hdid. }
  assert (serialize_doc chair !! "id" = Some (VStr "000000000000000000000001")) as Hsid
    by (vm_compute; reflexivity).
  split; [exact Hwf|]. split; [exact Hin|]. split; [exact Hid|]. split; [exact Hlen|].
  split; [exact Huniq|]. split; [exact Hsid|].
  exact (serialized_id_finds_product store chair oid1 _ Hwf Hin Hid Hlen Huniq Hsid).
Defined.

Lemma PyObjectId_validate_accepts_witness :
  String.length "0123456789abcdefABCDEF00" = 24%nat
  ∧ hex_string "0123456789abcdefABCDEF00"
  ∧ (∃ o, PyObjectId_validate (VStr "0123456789abcdefABCDEF00") = Ok o
          ∧ ObjectId_str o = "0123456789abcdefabcdef00")
  ∧ ObjectId_of_str "00 00 00 00 00 00 00 00 " = Some (mkObjectId (replicate 8 Byte.x00))
  ∧ PyObjectId_validate (VStr "00 00 00 00 00 00 00 00 ")
    = Ok (mkObjectId (replicate 8 Byte.x00)).
Proof.
  assert (hex_string "0123456789abcdefABCDEF00") as Hhex
    by (unfold hex_string; simpl; repeat (constructor; [by eexists|]); constructor).
  assert (ObjectId_of_str "00 00 00 00 00 00 00 00 "
          = Some (mkObjectId (replicate 8 Byte.x00))) as Hsp by (vm_compute; reflexivity).
  split; [reflexivity|]. split; [exact Hhex|]. split.
  - destruct (PyObjectId_validate_accepts (VStr "0123456789abcdefABCDEF00"))
      as (_ & _ & _ & _ & H & _).
    destruct (H _ eq_refl eq_refl Hhex) as (o & Ho & Hs & _).
    exists o. split; [exact Ho | exact Hs].
  - split; [exact Hsp|].
    destruct (PyObjectId_validate_accepts (VStr "00 00 00 00 00 00 00 00 "))
      as (_ & H & _).
    exact (H _ _ eq_refl Hsp).
Defined.

Lemma PyObjectId_validate_round_trip_witness :
  length (binary oid1) = 12%nat
  ∧ PyObjectId_validate (VStr (ObjectId_str oid1)) = Ok oid1.
Proof.
  split; [reflexivity|].
  exact (proj1 (PyObjectId_validate_round_trip oid1 "") eq_refl).
Defined.

Lemma order_quantity_enforced_witness :
  (∃ i, i ∈ order_items zero_quantity ∧ (item_quantity i < 1)%Z)
  ∧ app (Some store) (PostOrders zero_quantity)
    = (Raise RequestValidationError, Some store).
Proof.
  assert (∃ i, i ∈ order_items zero_quantity ∧ (item_quantity i < 1)%Z) as H
    by (eexists; split; [apply list_elem_of_here | simpl; lia]).
  split; [exact H|].
  exact (proj2 (order_quantity_enforced (Some store) zero_quantity) H).
Defined.

Lemma seed_data_keeps_data_witness :
  collection store "product" ≠ []
  ∧ ∃ db', seed_data (Some store) = Ok (Some db')
           ∧ collection db' "product" = collection store "product".
Proof.
  assert (collection store "product" ≠ []) as H by discriminate.
  split; [exact H|].
  destruct (seed_data_keeps_data store) as (_ & db' & Hrun & _ & Hp & _).
  exists db'. split; [exact Hrun | exact (Hp H)].
Defined.

Lemma list_products_sound_witness :
  list_products (Some store) no_filter
  = Ok (mkProductPage (serialize_doc <$> [chair; sofa]) 2 1 12)
  ∧ page_total (mkProductPage (serialize_doc <$> [chair; sofa]) 2 1 12)
    = length (matching store no_filter).
Proof.
  assert (list_products (Some store) no_filter
          = Ok (mkProductPage (serialize_doc <$> [chair; sofa]) 2 1 12)) as H
    by (vm_compute; reflexivity).
  split; [exact H|].
  exact (proj1 (list_products_sound store no_filter _ H)).
Defined.

End CoverageExamples.
